(** * doc_finder: index lifecycle, ingestion and retrieval

    A shallow embedding of the Python sources

      - [indexer.py]      (class [Indexer]),
      - [data_loader.py]  (class [DataLoader]),
      - [llm_handler.py]  (class [LLMHandler]),
      - [ai_app/query_engine.py] (class [QueryEngine]),
      - [ai_app/config.py] and [ai_app/main.py] (the start-up and the
        query loop),

    followed by the properties of the specification that concern them.

    Conventions.  Python statements that can raise are computations in a
    state-and-exception monad [M]; an exception keeps the side effects made
    before it was raised.  Calls to [logger] have no effect on any value the
    program computes and are left out.  The collaborators that live outside
    the repository (the PDF parser, the FAISS store, the completion backend)
    are fields of an environment record [Env] and of the [VectorStore]
    object: nothing is assumed about them unless a statement says so. *)

From Stdlib Require Import Ascii ZArith Lia.
From stdpp Require Import gmap strings list fin_maps sorting.

Local Open Scope Z_scope.

(** ** Python strings *)

Module Py.

Definition nl : string := String "010"%char EmptyString.
Definition dquote : string := String "034"%char EmptyString.

(** [str.lower].  A Python [str] is held as its UTF-8 encoding.  The
    ASCII capitals are mapped to small letters and the bytes of every other
    code point are kept.  The sources only compare a lowered string with
    the ASCII words [exit], [yes], [y] and [.pdf].  Beyond ASCII, only
    U+212A (the Kelvin sign, lowered to [k]) and U+0130 (lowered to [i]
    followed by the combining dot U+0307) have ASCII letters in their
    lower case, and neither can complete one of these words, so these
    comparisons come out as in Python. *)
Definition lower_char (c : ascii) : ascii :=
  let n := N_of_ascii c in
  if ((65 <=? n) && (n <=? 90))%N then ascii_of_N (n + 32) else c.

Fixpoint lower (s : string) : string :=
  match s with
  | EmptyString => EmptyString
  | String c s' => String (lower_char c) (lower s')
  end.

(** [str.isspace] on the ASCII range: TAB, LF, VT, FF, CR, FS, GS, RS, US
    and the space. *)
Definition isspace_char (c : ascii) : bool :=
  let n := N_of_ascii c in
  (((9 <=? n) && (n <=? 13)) || ((28 <=? n) && (n <=? 32)))%N.

(** The other white space of [str.isspace], by its UTF-8 bytes: U+0085 and
    U+00A0 take two bytes, U+1680, U+2000 to U+200A, U+2028, U+2029,
    U+202F, U+205F and U+3000 take three. *)
Definition isspace2 (b1 b2 : ascii) : bool :=
  let n1 := N_of_ascii b1 in
  let n2 := N_of_ascii b2 in
  ((n1 =? 194) && ((n2 =? 133) || (n2 =? 160)))%N.

Definition isspace3 (b1 b2 b3 : ascii) : bool :=
  let n1 := N_of_ascii b1 in
  let n2 := N_of_ascii b2 in
  let n3 := N_of_ascii b3 in
  (((n1 =? 225) && (n2 =? 154) && (n3 =? 128))
   || ((n1 =? 226) && (n2 =? 128)
       && (((128 <=? n3) && (n3 <=? 138))
           || (n3 =? 168) || (n3 =? 169) || (n3 =? 175)))
   || ((n1 =? 226) && (n2 =? 129) && (n3 =? 159))
   || ((n1 =? 227) && (n2 =? 128) && (n3 =? 128)))%N.

(** Dropping the white space at the head of a text.  With [backwards] the
    text is read from its end, so the bytes of a code point come in
    reverse. *)
Fixpoint lstrip_from (backwards : bool) (s : string) : string :=
  match s with
  | EmptyString => EmptyString
  | String b1 s1 =>
      if isspace_char b1 then lstrip_from backwards s1
      else
        match s1 with
        | EmptyString => s
        | String b2 s2 =>
            if (if backwards then isspace2 b2 b1 else isspace2 b1 b2)
            then lstrip_from backwards s2
            else
              match s2 with
              | EmptyString => s
              | String b3 s3 =>
                  if (if backwards then isspace3 b3 b2 b1
                      else isspace3 b1 b2 b3)
                  then lstrip_from backwards s3
                  else s
              end
        end
  end.

Definition lstrip (s : string) : string := lstrip_from false s.

Definition rstrip (s : string) : string :=
  String.rev (lstrip_from true (String.rev s)).

Definition strip (s : string) : string := rstrip (lstrip s).

Definition endswith (s suffix : string) : bool :=
  String.prefix (String.rev suffix) (String.rev s).

(** [sep.join(l)] *)
Definition join (sep : string) (l : list string) : string :=
  String.concat sep l.

(** Truth value of a string and of a list. *)
Definition truthy_str (s : string) : bool :=
  match s with EmptyString => false | String _ _ => true end.

Definition truthy_list {A} (l : list A) : bool :=
  match l with [] => false | _ :: _ => true end.

(** [str <= str]: code-point order, which on UTF-8 encoded text is the
    byte-wise lexicographic order. *)
Definition str_le (a b : string) : Prop := String.leb a b = true.

Global Instance str_le_dec a b : Decision (str_le a b).
Proof. unfold str_le. apply _. Defined.

(** [list(set(l))] followed by [sorted]: the order in which a set is
    listed is unspecified, and [sorted] erases it. *)
Definition list_set (l : list string) : list string := remove_dups l.

Definition sorted (l : list string) : list string := merge_sort str_le l.

End Py.

(** ** Exceptions and outcomes *)

(** The classes of [Exception] the sources name, with their messages.
    [FileNotFoundError] is a subclass of [OSError] (whose alias is
    [IOError]); every constructor is an [Exception]. *)
Inductive exn : Type :=
| ValueError (msg : string)
| FileNotFoundError (msg : string)
| OSError (msg : string)
| Exception (msg : string).

Definition is_ValueError (e : exn) : bool :=
  match e with ValueError _ => true | _ => false end.

Definition is_FileNotFoundError (e : exn) : bool :=
  match e with FileNotFoundError _ => true | _ => false end.

Definition is_OSError (e : exn) : bool :=
  match e with FileNotFoundError _ | OSError _ => true | _ => false end.

Inductive Res (A : Type) : Type :=
| Ok (a : A)
| Raise (e : exn).
Arguments Ok {A} a.
Arguments Raise {A} e.

(** ** Documents and the vector store *)

(** [langchain.docstore.document.Document] *)
Record Document := mkDocument {
  page_content : string;
  metadata : gmap string string;
}.

(** The handle on a FAISS store.  Its nearest-neighbour search belongs to
    the library: all the sources see of it is a list of documents or an
    exception. *)
Record VectorStore := mkVectorStore {
  similarity_search : string → Z → Res (list Document);
}.

Record EmbeddingModel := mkEmbeddingModel { model_name : string }.

(** [embedder.py] *)
Record Embedder := mkEmbedder { model : option EmbeddingModel }.

(** ** The file system *)

(** What sits at a path the program uses as a directory: a directory with
    the names of its entries, or something that is no directory (a
    regular file). *)
Inductive node : Type :=
| Directory (names : gset string)
| RegularFile.

Global Instance node_eq_dec : EqDecision node.
Proof. solve_decision. Defined.

(** [dirs] maps the directory paths, as the program spells them
    ([config.py] has ["pdfs"] and ["index"]), to what is there.
    [os.path.join d n] is the pair [(d, n)]: the entry [n] of [d].  With
    the empty string for [d] the joined path is [n] alone, an entry of the
    current directory, so [dirs] holds the current directory under the
    empty string; the empty path itself is no directory for [os.path]
    and [os] (see [isdir], [exists_dir], [os_makedirs], [os_listdir]).
    Two spellings of one directory, and a path that is both a directory
    of [dirs] and an entry of another one, are not related by the model.

    The remaining fields say what the operating system will refuse:
    [protected] holds the entries it does not let the program delete or
    open for writing, [denied] the directories it does not let the program
    make, and [failing] the entries whose writing starts and then fails
    with the given exception, leaving the file behind. *)
Record FS := mkFS {
  dirs : gmap string node;
  protected : gset (string * string);
  denied : gset string;
  failing : gmap (string * string) exn;
}.

Definition path : Type := string * string.

Definition os_path_join (d n : string) : path := (d, n).

(** [f"{p}{suffix}"] *)
Definition add_suffix (p : path) (suffix : string) : path :=
  (p.1, p.2 +:+ suffix).

Definition is_empty (d : string) : bool :=
  match d with EmptyString => true | String _ _ => false end.

(** The names in the directory at [d], when a directory is there. *)
Definition entries (f : FS) (d : string) : option (gset string) :=
  match dirs f !! d with
  | Some (Directory names) => Some names
  | _ => None
  end.

(** [os.path.isdir d] and [os.path.exists d] for a directory path; both
    are false of the empty path. *)
Definition isdir (f : FS) (d : string) : bool :=
  negb (is_empty d) && bool_decide (is_Some (entries f d)).

Definition exists_dir (f : FS) (d : string) : bool :=
  negb (is_empty d) && bool_decide (is_Some (dirs f !! d)).

(** [os.path.exists] of the entry [p]. *)
Definition exists_ (f : FS) (p : path) : bool :=
  match entries f p.1 with
  | Some names => bool_decide (p.2 ∈ names)
  | None => false
  end.

(** What [os.listdir d] can list. *)
Definition listing (f : FS) (d : string) : option (gset string) :=
  if is_empty d then None else entries f d.

Definition map_names (g : gset string → gset string) (nd : node) : node :=
  match nd with
  | Directory names => Directory (g names)
  | RegularFile => RegularFile
  end.

Definition with_dirs (f : FS) (m : gmap string node) : FS :=
  {| dirs := m; protected := protected f; denied := denied f;
     failing := failing f |}.

(** The file system without the entry [p], with the entry [p], and with
    the (empty) directory [d]. *)
Definition unlink (f : FS) (p : path) : FS :=
  with_dirs f (alter (map_names (λ names, names ∖ {[ p.2 ]})) p.1 (dirs f)).

Definition touch (f : FS) (p : path) : FS :=
  with_dirs f (alter (map_names (λ names, names ∪ {[ p.2 ]})) p.1 (dirs f)).

Definition mkdir (f : FS) (d : string) : FS :=
  with_dirs f (<[ d := Directory ∅ ]> (dirs f)).

(** ** The program state *)

(** [Indexer.__init__] sets these four attributes. *)
Record Indexer := mkIndexer {
  embedder : option Embedder;
  index_directory : string;
  index_name : string;
  vectorstore : option VectorStore;
}.

Definition Indexer_init (e : option Embedder) (index_dir : string) : Indexer :=
  {| embedder := e; index_directory := index_dir;
     index_name := "faiss_index"; vectorstore := None |}.

(** The mutable state a run can reach: the file system, the one [Indexer]
    object (shared by [main] and the [QueryEngine]), and the prompts the
    completion backend has received so far, oldest first. *)
Record World := mkWorld {
  fs : FS;
  indexer : Indexer;
  prompts : list string;
}.

(** ** The state and exception monad *)

Definition M (A : Type) : Type := World → Res A * World.

Definition ret {A} (a : A) : M A := λ w, (Ok a, w).

Definition raise {A} (e : exn) : M A := λ w, (Raise e, w).

Definition bind {A B} (m : M A) (k : A → M B) : M B :=
  λ w, match m w with
       | (Ok a, w') => k a w'
       | (Raise e, w') => (Raise e, w')
       end.

(** [try: body  except ...: handler]; a handler that does not match the
    exception re-raises it. *)
Definition try_except {A} (body : M A) (handler : exn → M A) : M A :=
  λ w, match body w with
       | (Ok a, w') => (Ok a, w')
       | (Raise e, w') => handler e w'
       end.

Definition lift {A} (r : Res A) : M A := λ w, (r, w).

Declare Scope py_scope.
Delimit Scope py_scope with py.
Notation "x ⇐ m ;; k" := (bind m (λ x, k))
  (at level 100, m at next level, right associativity) : py_scope.
Notation "m ;;; k" := (bind m (λ _, k))
  (at level 100, right associativity) : py_scope.
Local Open Scope py_scope.

Definition get_fs : M FS := λ w, (Ok (fs w), w).
Definition get_self : M Indexer := λ w, (Ok (indexer w), w).

Definition with_fs (w : World) (f : FS) : World :=
  {| fs := f; indexer := indexer w; prompts := prompts w |}.

Definition set_fs (f : FS) : M unit := λ w, (Ok tt, with_fs w f).

(** [self.vectorstore = v] *)
Definition set_vectorstore (v : option VectorStore) : M unit :=
  λ w, (Ok tt,
        {| fs := fs w;
           indexer := {| embedder := embedder (indexer w);
                         index_directory := index_directory (indexer w);
                         index_name := index_name (indexer w);
                         vectorstore := v |};
           prompts := prompts w |}).

Definition log_prompt (p : string) : M unit :=
  λ w, (Ok tt, {| fs := fs w; indexer := indexer w;
                  prompts := prompts w ++ [p] |}).

(** *** [os] and [os.path] *)

Definition os_path_isdir (d : string) : M bool :=
  f ⇐ get_fs ;; ret (isdir f d).

(** [os.path.exists] of a directory path. *)
Definition os_path_exists_dir (d : string) : M bool :=
  f ⇐ get_fs ;; ret (exists_dir f d).

(** [os.path.exists] of an entry of a directory. *)
Definition os_path_exists (p : path) : M bool :=
  f ⇐ get_fs ;; ret (exists_ f p).

(** [IsADirectoryError] and [PermissionError] are [OSError]s. *)
Definition os_remove (p : path) : M unit :=
  f ⇐ get_fs ;;
  if exists_ f p then
    if bool_decide (p ∈ protected f) then
      raise (OSError "Operation not permitted")
    else set_fs (unlink f p)
  else raise (FileNotFoundError "No such file or directory").

(** [os.makedirs d]: the empty path cannot be made, a path that exists
    gives [FileExistsError], a refusal [PermissionError]. *)
Definition os_makedirs (d : string) : M unit :=
  f ⇐ get_fs ;;
  if is_empty d then raise (FileNotFoundError "No such file or directory")
  else if exists_dir f d then raise (OSError "File exists")
  else if bool_decide (d ∈ denied f) then raise (OSError "Permission denied")
  else set_fs (mkdir f d).

(** [os.listdir d]; on a regular file it raises [NotADirectoryError]. *)
Definition os_listdir (d : string) : M (list string) :=
  f ⇐ get_fs ;;
  if is_empty d then raise (FileNotFoundError "No such file or directory")
  else
    match dirs f !! d with
    | Some (Directory names) => ret (elements names)
    | Some RegularFile => raise (OSError "Not a directory")
    | None => raise (FileNotFoundError "No such file or directory")
    end.

(** Creating or overwriting the file [p].  [refusal] is what the writer
    raises when the file cannot be opened; a write that fails on its way
    raises what [failing] says, after the file was made. *)
Definition write_file (p : path) (refusal : exn) : M unit :=
  f ⇐ get_fs ;;
  match entries f p.1 with
  | None => raise (FileNotFoundError "No such file or directory")
  | Some _ =>
      if bool_decide (p ∈ protected f) then raise refusal
      else
        match failing f !! p with
        | Some e => set_fs (touch f p) ;;; raise e
        | None => set_fs (touch f p)
        end
  end.

(** [Path(d).mkdir(exist_ok=True, parents=True)]; the empty path is the
    current directory. *)
Definition path_mkdir (d : string) : M unit :=
  f ⇐ get_fs ;;
  if is_empty d then ret tt
  else
    match dirs f !! d with
    | Some (Directory _) => ret tt
    | Some RegularFile => raise (OSError "File exists")
    | None =>
        if bool_decide (d ∈ denied f) then raise (OSError "Permission denied")
        else set_fs (mkdir f d)
    end.

(** ** Configuration and collaborators *)

(** [config.py]: the two directories are constants of the [Config] object. *)
Module config.
Definition PDF_DIRECTORY : string := "pdfs".
Definition INDEX_DIRECTORY : string := "index".
Definition EMBEDDING_MODEL : string := "BAAI/bge-small-en-v1.5".
End config.

(** What the libraries answer.  [PyPDFLoader_load p] is
    [PyPDFLoader(p).load()], the pages of the file as documents;
    [llm_invoke prompt] is [str(self.llm.invoke(prompt))]. *)
Record Env := mkEnv {
  PyPDFLoader_load : path → Res (list Document);
  FAISS_from_documents : list Document → EmbeddingModel → Res VectorStore;
  FAISS_load_local : string → EmbeddingModel → string → Res VectorStore;
  llm_invoke : string → Res string;
}.

(** A [for] loop over a list, threading the variables the body assigns. *)
Fixpoint for_each {A S : Type} (l : list A) (body : A → S → M S) (s : S)
  : M S :=
  match l with
  | [] => ret s
  | x :: l' => s' ⇐ body x s ;; for_each l' body s'
  end.

(** [DataLoader.__init__] *)
Record DataLoader := mkDataLoader { pdf_directory : string }.

Section Program.

Variable env : Env.

(** ** [data_loader.py] *)

(** [filename.lower().endswith(".pdf")] *)
Definition is_pdf (filename : string) : bool :=
  Py.endswith (Py.lower filename) ".pdf".

(** ["\n".join([page.page_content for page in pages if page.page_content])] *)
Definition concat_pages (pages : list Document) : string :=
  Py.join Py.nl
    (map page_content
       (List.filter (λ page, Py.truthy_str (page_content page)) pages)).

(** The body of the loop of [load_pdfs], on the pair
    [(all_docs_per_file, pdf_files_found)]; [continue] is the early
    [ret] of the unchanged list. *)
Definition load_pdfs_body (self : DataLoader) (filename : string)
    (vars : list Document * nat) : M (list Document * nat) :=
  let '(all_docs_per_file, pdf_files_found) := vars in
  if is_pdf filename then
    let pdf_files_found := S pdf_files_found in
    let filepath := os_path_join (pdf_directory self) filename in
    try_except
      (pages ⇐ lift (PyPDFLoader_load env filepath) ;;
       if negb (Py.truthy_list pages) then
         ret (all_docs_per_file, pdf_files_found)
       else
         let full_text := concat_pages pages in
         if negb (Py.truthy_str (Py.strip full_text)) then
           ret (all_docs_per_file, pdf_files_found)
         else
           let file_document :=
             {| page_content := full_text;
                metadata := {[ "source" := filename ]} |} in
           ret (all_docs_per_file ++ [file_document], pdf_files_found))
      (λ e, ret (all_docs_per_file, pdf_files_found))
  else ret (all_docs_per_file, pdf_files_found).

Definition load_pdfs (self : DataLoader) : M (list Document) :=
  filenames ⇐ os_listdir (pdf_directory self) ;;
  vars ⇐ for_each filenames (load_pdfs_body self) ([], 0%nat) ;;
  ret vars.1.

(** ** [indexer.py] *)

(** [langchain]'s [FAISS.save_local]: the folder is made if it is
    missing, then [faiss.write_index] writes the vector structure (it
    raises [RuntimeError] when it cannot open the file), then the docstore
    is pickled into a file opened with [open]. *)
Definition save_local (vs : VectorStore) (folder_path index_name : string)
  : M unit :=
  path_mkdir folder_path ;;;
  write_file (add_suffix (os_path_join folder_path index_name) ".faiss")
    (Exception "could not open file for writing") ;;;
  write_file (add_suffix (os_path_join folder_path index_name) ".pkl")
    (OSError "Permission denied").

Definition _get_index_path (self : Indexer) : path :=
  os_path_join (index_directory self) (index_name self).

Definition faiss_file (self : Indexer) : path :=
  add_suffix (_get_index_path self) ".faiss".

Definition pkl_file (self : Indexer) : path :=
  add_suffix (_get_index_path self) ".pkl".

Definition index_exists : M bool :=
  self ⇐ get_self ;;
  is_dir ⇐ os_path_isdir (index_directory self) ;;
  has_faiss ⇐ os_path_exists (faiss_file self) ;;
  has_pkl ⇐ os_path_exists (pkl_file self) ;;
  ret (is_dir && has_faiss && has_pkl).

(** [except OSError as e: ...; raise] *)
Definition reraise_OSError {A} (e : exn) : M A :=
  if is_OSError e then raise e else raise e.

Definition _remove_existing_index : M unit :=
  self ⇐ get_self ;;
  let removed := false in
  has_faiss ⇐ os_path_exists (faiss_file self) ;;
  removed ⇐ (if has_faiss then
               try_except (os_remove (faiss_file self) ;;; ret true)
                          reraise_OSError
             else ret removed) ;;
  has_pkl ⇐ os_path_exists (pkl_file self) ;;
  removed ⇐ (if has_pkl then
               try_except (os_remove (pkl_file self) ;;; ret true)
                          reraise_OSError
             else ret removed) ;;
  ret tt.

(** [not self.embedder or not self.embedder.model] *)
Definition embedder_model (self : Indexer) : option EmbeddingModel :=
  match embedder self with
  | Some e => model e
  | None => None
  end.

Definition save_index : M unit :=
  self ⇐ get_self ;;
  match vectorstore self with
  | None => raise (ValueError "Vectorstore not created, cannot save.")
  | Some vs =>
      try_except
        (present ⇐ os_path_exists_dir (index_directory self) ;;
         (if negb present then os_makedirs (index_directory self)
          else ret tt) ;;;
         save_local vs (index_directory self) (index_name self))
        raise
  end.

Definition create_n_save_index (documents : list Document) : M unit :=
  self ⇐ get_self ;;
  if negb (Py.truthy_list documents) then
    raise (ValueError "No documents provided to create index.")
  else
    match embedder_model self with
    | None => raise (ValueError "Embedder not properly initialized.")
    | Some embedding =>
        try_except
          (present ⇐ os_path_exists_dir (index_directory self) ;;
           (if negb present then os_makedirs (index_directory self)
            else ret tt) ;;;
           vs ⇐ lift (FAISS_from_documents env documents embedding) ;;
           set_vectorstore (Some vs) ;;;
           save_index)
          raise
    end.

Definition load_index : M unit :=
  self ⇐ get_self ;;
  found ⇐ index_exists ;;
  if negb found then
    raise (FileNotFoundError
             ("FAISS index not found at " +:+ index_directory self
                +:+ "/" +:+ index_name self))
  else
    match embedder_model self with
    | None =>
        raise (ValueError
                 "Embedder not properly initialized for loading FAISS index.")
    | Some embedding =>
        try_except
          (vs ⇐ lift (FAISS_load_local env (index_directory self)
                        embedding (index_name self)) ;;
           set_vectorstore (Some vs))
          raise
    end.

Definition search (query : string) (k : Z) : M (list Document) :=
  self ⇐ get_self ;;
  match vectorstore self with
  | None => raise (ValueError "Index not loaded or created.")
  | Some vs =>
      try_except
        (results ⇐ lift (similarity_search vs query k) ;;
         ret results)
        (λ e, ret [])
  end.

(** The default [k = 2] of [search]. *)
Definition search_default_k : Z := 2.

Definition rebuild_index (data_loader : DataLoader) : M bool :=
  try_except
    (_remove_existing_index ;;;
     is_dir ⇐ os_path_isdir config.PDF_DIRECTORY ;;
     has_pdf ⇐ (if is_dir then
                  filenames ⇐ os_listdir config.PDF_DIRECTORY ;;
                  ret (existsb is_pdf filenames)
                else ret false) ;;
     if negb is_dir || negb has_pdf then ret false
     else
       documents_per_file ⇐ load_pdfs data_loader ;;
       if Py.truthy_list documents_per_file then
         create_n_save_index documents_per_file ;;;
         ret true
       else ret false)
    (λ e, if is_FileNotFoundError e then ret false
          else if is_ValueError e then ret false
          else ret false).

Definition setup_index (data_loader : DataLoader) : M bool :=
  try_except
    (found ⇐ index_exists ;;
     if found then load_index ;;; ret true
     else rebuild_index data_loader)
    (λ e, ret false).

(** ** [llm_handler.py] *)

(** [LLMHandler.generate_response]: one blocking call to the backend.  The
    prompt is recorded in [prompts] when the call is made. *)
Definition generate_response (prompt : string) : M string :=
  log_prompt prompt ;;;
  lift (llm_invoke env prompt).

(** ** [ai_app/query_engine.py] *)

Definition no_relevant_message : string :=
  "I could not find any PDF files in the index that seem relevant to your query.".

Definition index_unavailable_message : string :=
  "Error: The document index is not available. Please ensure it has been created or loaded.".

Definition unexpected_error_message : string :=
  "An unexpected error occurred while processing your query.".

(** [doc.metadata.get('source', 'Unknown Source')] *)
Definition source_of (doc : Document) : string :=
  default "Unknown Source" (metadata doc !! "source").

(** The bullet list both f-strings interpolate:
    [- {'\n- '.join(unique_filenames)}]. *)
Definition bullet_list (unique_filenames : list string) : string :=
  "- " +:+ Py.join (Py.nl +:+ "- ") unique_filenames.

(** The continuation lines of the triple-quoted prompt keep the
    indentation of the source file. *)
Definition prompt_indent : string := "                        ".

Definition build_prompt (unique_filenames : list string)
    (user_query : string) : string :=
  "Based on the user's query and an analysis of the content of available PDF documents, the following PDF files were identified as potentially relevant:"
  +:+ Py.nl +:+ prompt_indent +:+ "Potentially Relevant PDF Filenames:"
  +:+ Py.nl +:+ prompt_indent +:+ bullet_list unique_filenames
  +:+ Py.nl +:+ prompt_indent +:+ "User Query: "
  +:+ Py.dquote +:+ user_query +:+ Py.dquote
  +:+ Py.nl +:+ prompt_indent
  +:+ "Please analyze the user's query and the list of filenames. Suggest which of these PDF files the user should look into to find the information they are seeking. Explain briefly why each suggested file might be relevant, if possible. If none seem particularly relevant despite being listed, state that. Be concise."
  +:+ Py.nl +:+ prompt_indent +:+ "Suggested files to check:".

(** What [query] puts in front of the backend's text. *)
Definition response_header (unique_filenames : list string) : string :=
  "Based on your query, the following PDF files might contain relevant information:"
  +:+ Py.nl +:+ bullet_list unique_filenames +:+ Py.nl +:+ Py.nl.

Definition get_relevant_docs (query : string) : M (list Document) :=
  self_indexer ⇐ get_self ;;
  match vectorstore self_indexer with
  | None => raise (ValueError "Index not loaded or created.")
  | Some _ =>
      try_except
        (relevant_pdf_docs ⇐ search query search_default_k ;;
         ret relevant_pdf_docs)
        (λ e, ret [])
  end.

Definition query (user_query : string) : M string :=
  try_except
    (relevant_pdf_docs ⇐ get_relevant_docs user_query ;;
     if negb (Py.truthy_list relevant_pdf_docs) then
       ret no_relevant_message
     else
       let relevant_filenames := map source_of relevant_pdf_docs in
       let unique_filenames := Py.sorted (Py.list_set relevant_filenames) in
       let prompt := build_prompt unique_filenames user_query in
       response_obj ⇐ generate_response prompt ;;
       (* [generate_response] returns a [str], which has no attribute
          [content]: the branch taken is [str(response_obj)]. *)
       let response_text := response_obj in
       let final_response :=
         response_header unique_filenames
         +:+ "LLM Suggestion:" +:+ Py.nl +:+ Py.strip response_text in
       ret final_response)
    (λ e, if is_ValueError e then ret index_unavailable_message
          else ret unexpected_error_message).

End Program.

(** ** Vocabulary of the statements *)

(** Deleting [p] would fail: the entry is there and the system refuses. *)
Definition removal_blocked (f : FS) (p : path) : bool :=
  exists_ f p && bool_decide (p ∈ protected f).

(** The contract of the library's nearest-neighbour search that the
    sources rely on: asked for [k] neighbours it answers no more than [k]
    documents. *)
Definition returns_at_most_k (vs : VectorStore) : Prop :=
  ∀ (q : string) (k : Z) (results : list Document),
    similarity_search vs q k = Ok results →
    (length results ≤ Z.to_nat k)%nat.

(** The state after the completion backend received one more prompt. *)
Definition with_prompt (w : World) (p : string) : World :=
  {| fs := fs w; indexer := indexer w; prompts := prompts w ++ [p] |}.

(** The document [load_pdfs] makes of the directory entry [filename], if
    it makes one. *)
Definition unit_of (env : Env) (self : DataLoader) (filename : string)
  : option Document :=
  if is_pdf filename then
    match PyPDFLoader_load env (os_path_join (pdf_directory self) filename)
    with
    | Ok pages =>
        if Py.truthy_list pages
           && Py.truthy_str (Py.strip (concat_pages pages))
        then Some {| page_content := concat_pages pages;
                     metadata := {[ "source" := filename ]} |}
        else None
    | Raise _ => None
    end
  else None.

(** The entries of the directory [d] that [rebuild_index] and [load_pdfs]
    take for PDF files; none when [d] is no directory. *)
Definition eligible_files (f : FS) (d : string) : list string :=
  match listing f d with
  | Some names => List.filter is_pdf (elements names)
  | None => []
  end.

(** Saving can use [d] as the index directory: it is a directory, or
    nothing is at the path and the system lets the program make it. *)
Definition can_hold_index (f : FS) (d : string) : bool :=
  isdir f d
  || (negb (is_empty d) && negb (exists_dir f d)
      && negb (bool_decide (d ∈ denied f))).

(** [if not os.path.exists(d): os.makedirs(d)], the guard that
    [save_index], [create_n_save_index] and [create_directory] share. *)
Definition ensure_directory (d : string) : M unit :=
  present ⇐ os_path_exists_dir d ;;
  if negb present then os_makedirs d else ret tt.

(** Writing the entry [p] is neither refused nor does it fail. *)
Definition writable (f : FS) (p : path) : bool :=
  negb (bool_decide (p ∈ protected f))
  && bool_decide (failing f !! p = None).

(** ** A small installation

    The two documents of the end-to-end scenario of the specification,
    next to a file that cannot be parsed, a file of blank pages and a file
    that is no PDF. *)

Module Demo.

Definition embedder0 : option Embedder :=
  Some (mkEmbedder (Some (mkEmbeddingModel config.EMBEDDING_MODEL))).

Definition page (text : string) : Document :=
  {| page_content := text; metadata := ∅ |}.

Definition doc_a : Document :=
  {| page_content := "The quick brown fox jumps over cats";
     metadata := {[ "source" := "a.pdf" ]} |}.

Definition doc_b : Document :=
  {| page_content := "Quantum entanglement in superconducting qubits";
     metadata := {[ "source" := "b.pdf" ]} |}.

(** A store that answers the first [k] of its documents and, like FAISS,
    refuses a [k] that is not positive. *)
Definition store_of (docs : list Document) : VectorStore :=
  {| similarity_search := λ _ k,
       if (k <=? 0)%Z then Raise (Exception "k must be positive")
       else Ok (take (Z.to_nat k) docs) |}.

(** U+00A0, the no-break space, in UTF-8. *)
Definition nbsp : string := String "194"%char (String "160"%char EmptyString).

Definition pdf_pages (p : path) : Res (list Document) :=
  if String.eqb p.2 "a.pdf" then
    Ok [page "The quick brown fox jumps over cats"; page ""]
  else if String.eqb p.2 "B.PDF" then
    Ok [page "Quantum entanglement in superconducting qubits"]
  else if String.eqb p.2 "blank.pdf" then Ok [page "  "; page nbsp; page ""]
  else if String.eqb p.2 "notes.txt" then Ok [page "shopping list"]
  else Raise (Exception "not a PDF file").

Definition env0 : Env :=
  {| PyPDFLoader_load := pdf_pages;
     FAISS_from_documents := λ docs _, Ok (store_of docs);
     FAISS_load_local := λ _ _ _, Ok (store_of [doc_a; doc_b]);
     llm_invoke := λ _, Ok " Open a.pdf first. " |}.

Definition loader0 : DataLoader := mkDataLoader config.PDF_DIRECTORY.

Definition faiss_name : string := "faiss_index.faiss".
Definition pkl_name : string := "faiss_index.pkl".

Definition fs_of (m : gmap string node) (refused : gset (string * string))
  : FS :=
  {| dirs := m; protected := refused; denied := ∅; failing := ∅ |}.

(** Nothing indexed yet. *)
Definition fs_fresh : FS :=
  fs_of {[ "pdfs" := Directory {[ "a.pdf"; "B.PDF"; "blank.pdf";
                                  "broken.pdf"; "notes.txt" ]};
           "index" := Directory ∅ ]} ∅.

(** An index on disk and no PDF to rebuild it from. *)
Definition fs_indexed : FS :=
  fs_of {[ "pdfs" := Directory {[ "notes.txt" ]};
           "index" := Directory {[ faiss_name; pkl_name ]} ]} ∅.

(** The same, with a vector file that cannot be deleted. *)
Definition fs_locked : FS :=
  fs_of (dirs fs_indexed) {[ ("index", faiss_name) ]}.

(** Only the docstore file is left of an index. *)
Definition fs_half : FS :=
  fs_of {[ "pdfs" := Directory ∅; "index" := Directory {[ pkl_name ]} ]} ∅.


Definition world_of (f : FS) (vs : option VectorStore) : World :=
  {| fs := f;
     indexer := {| embedder := embedder0;
                   index_directory := config.INDEX_DIRECTORY;
                   index_name := "faiss_index";
                   vectorstore := vs |};
     prompts := [] |}.

Definition w_fresh : World := world_of fs_fresh None.
Definition w_indexed : World := world_of fs_indexed None.
Definition w_locked : World := world_of fs_locked None.
Definition w_half : World := world_of fs_half None.
Definition w_loaded : World :=
  world_of fs_indexed (Some (store_of [doc_b; doc_a])).
Definition w_loaded_empty : World := world_of fs_indexed (Some (store_of [])).


(** The state after the first index was built, and after it was removed
    again. *)
Definition w_built : World :=
  (create_n_save_index env0 [doc_a; doc_b] w_fresh).2.
Definition w_removed : World := (_remove_existing_index w_built).2.

End Demo.

(** * The start-up code

    [config.py] as far as it reads the process environment, the
    constructor of [LLMHandler], and [ai_app/main.py]. *)

(** The client objects of the two completion backends. *)
Inductive LLM : Type :=
| Ollama_client (model : string)
| Groq_client (model : string).

(** What the process is started with: its environment variables, and the
    constructors of the libraries, each of which may raise. *)
Record Startup := mkStartup {
  environ : gmap string string;
  HuggingFaceEmbeddings : string → Res EmbeddingModel;
  OllamaLLM : string → Res LLM;
  ChatGroq : string → Res LLM;
}.

(** The attributes [Config.__init__] reads with [os.environ.get]. *)
Record Config := mkConfig {
  LLM_PROVIDER : string;
  GROQ_MODEL : string;
  OLLAMA_MODEL : string;
  GROQ_API_KEY : option string;
}.

(** [os.environ.get(key, default)] *)
Definition environ_get (env_vars : gmap string string) (key dflt : string)
  : string :=
  default dflt (env_vars !! key).

Definition Config_init (env_vars : gmap string string) : Config :=
  {| LLM_PROVIDER := environ_get env_vars "LLM_PROVIDER" "groq";
     GROQ_MODEL := environ_get env_vars "GROQ_MODEL" "llama-3.3-70b-versatile";
     OLLAMA_MODEL := environ_get env_vars "OLLAMA_MODEL" "llama3.2:latest";
     GROQ_API_KEY := env_vars !! "GROQ_API_KEY" |}.

(** Truth value of [config.GROQ_API_KEY]: [None] and the empty string are
    false. *)
Definition truthy_key (key : option string) : bool :=
  match key with
  | Some k => Py.truthy_str k
  | None => false
  end.

(** [LLMHandler._get_llm] *)
Definition _get_llm (st : Startup) (c : Config) : Res LLM :=
  if String.eqb (LLM_PROVIDER c) "ollama" then OllamaLLM st (OLLAMA_MODEL c)
  else if String.eqb (LLM_PROVIDER c) "groq" then
    if negb (truthy_key (GROQ_API_KEY c)) then
      Raise (ValueError "GROQ_API_KEY environment variable is not set.")
    else ChatGroq st (GROQ_MODEL c)
  else Raise (ValueError ("Invalid LLM_PROVIDER: " +:+ LLM_PROVIDER c)).

(** [LLMHandler.__init__] *)
Definition LLMHandler_init (st : Startup) : Res LLM :=
  _get_llm st (Config_init (environ st)).

(** [Embedder.__init__] with its default model name. *)
Definition Embedder_init (st : Startup) : Res Embedder :=
  match HuggingFaceEmbeddings st config.EMBEDDING_MODEL with
  | Ok m => Ok (mkEmbedder (Some m))
  | Raise e => Raise e
  end.

(** [indexer = Indexer(...)]: the object the rest of the run works on. *)
Definition set_indexer (i : Indexer) : M unit :=
  λ w, (Ok tt, {| fs := fs w; indexer := i; prompts := prompts w |}).

Definition create_directory (directory : string) : M unit :=
  present ⇐ os_path_exists_dir directory ;;
  if negb present then try_except (os_makedirs directory) reraise_OSError
  else ret tt.

(** [initialize_components] returns the loader; the indexer it makes is
    the one of the state, and the query engine is that indexer with the
    handler just built. *)
Definition initialize_components (st : Startup) : M DataLoader :=
  try_except
    (create_directory config.PDF_DIRECTORY ;;;
     create_directory config.INDEX_DIRECTORY ;;;
     let data_loader := mkDataLoader config.PDF_DIRECTORY in
     embedder ⇐ lift (Embedder_init st) ;;
     set_indexer (Indexer_init (Some embedder) config.INDEX_DIRECTORY) ;;;
     llm_handler ⇐ lift (LLMHandler_init st) ;;
     ret data_loader)
    raise.

(** What a call of [input()] and the turn of the loop it starts do: the
    call returns a line; or Ctrl-C raises [KeyboardInterrupt] at the
    prompt; or the input is at its end and [EOFError] is raised; or the
    call returns a line and Ctrl-C arrives while the turn handles it, in
    [query_engine.query], before or after the prompt was handed to the
    completion backend.  Ctrl-C after the response was logged leaves what
    the line followed by an [Interrupt] at the next prompt leaves, and is
    that pair of events. *)
Inductive input_event : Type :=
| Line (text : string)
| Interrupt
| EndOfInput
| InterruptedLine (text : string) (prompt_sent : bool).

Inductive iteration : Type :=
| Break
| Continue (shown : list string).

(** One turn of the [while True] loop of [query_loop]; [shown] is the
    response the turn logs, if it logs one.  [EOFError] is an [Exception]
    and is handled by the second [except] clause.  [KeyboardInterrupt] is
    not: raised by [input()] or inside [query_engine.query], whose
    [except Exception] clauses let it pass, it reaches the first [except]
    clause, which leaves the loop.  A query interrupted after its prompt
    was sent leaves the state that query leaves. *)
Definition query_loop_body (env : Env) (ev : input_event) : M iteration :=
  match ev with
  | Interrupt => ret Break
  | InterruptedLine user_query prompt_sent =>
      if String.eqb (Py.lower (Py.strip user_query)) "exit" then ret Break
      else if negb (Py.truthy_str (Py.strip user_query)) then ret Break
      else if prompt_sent then query env user_query ;;; ret Break
      else ret Break
  | _ =>
      try_except
        (user_query ⇐ match ev with
                      | Line text => ret text
                      | _ => raise (Exception "EOF when reading a line")
                      end ;;
         if String.eqb (Py.lower (Py.strip user_query)) "exit" then ret Break
         else if negb (Py.truthy_str (Py.strip user_query)) then
           ret (Continue [])
         else
           response ⇐ query env user_query ;;
           ret (Continue [response]))
        (λ e, ret (Continue []))
  end.

Inductive loop_end : Type :=
| Exited
| Blocked.

(** [query_loop] run against the calls of [input()] listed in [inputs]; it
    is [Blocked] when the list ends with the loop still waiting for a
    line.  The result carries the responses logged, in order. *)
Fixpoint query_loop (env : Env) (inputs : list input_event)
  : M (loop_end * list string) :=
  match inputs with
  | [] => ret (Blocked, [])
  | ev :: rest =>
      turn ⇐ query_loop_body env ev ;;
      match turn with
      | Break => ret (Exited, [])
      | Continue shown =>
          later ⇐ query_loop env rest ;;
          ret (later.1, shown ++ later.2)
      end
  end.

(** How a run of [main] ends: it returns (exit status 0), it calls
    [sys.exit(1)], a [KeyboardInterrupt] escapes it, or it is still waiting
    for input when [inputs] ends.  The program is started without
    command-line arguments, so [parse_args] has nothing to refuse;
    [SystemExit] is no [Exception] and passes the [except] clauses.  An
    interrupt is modelled at the prompts and in the queries of the loop;
    at the rebuild question, [InterruptedLine] is an interrupt that arrives
    before the answer is acted on. *)
Inductive exit_status : Type :=
| Exit0
| Exit1
| KeyboardInterrupted
| WaitingForInput.

(** [choice in ['yes', 'y']] *)
Definition is_yes (choice : string) : bool :=
  String.eqb choice "yes" || String.eqb choice "y".

Definition run_query_loop (env : Env) (inputs : list input_event)
  : M (exit_status * list string) :=
  r ⇐ query_loop env inputs ;;
  ret (match r.1 with Exited => Exit0 | Blocked => WaitingForInput end, r.2).

Definition main (st : Startup) (env : Env) (inputs : list input_event)
  : M (exit_status * list string) :=
  try_except
    (data_loader ⇐ initialize_components st ;;
     found ⇐ index_exists ;;
     if found then
       match inputs with
       | [] => ret (WaitingForInput, [])
       | Interrupt :: _ => ret (KeyboardInterrupted, [])
       | InterruptedLine _ _ :: _ => ret (KeyboardInterrupted, [])
       | EndOfInput :: _ => raise (Exception "EOF when reading a line")
       | Line text :: rest =>
           let choice := Py.lower (Py.strip text) in
           let rebuild_requested := is_yes choice in
           if rebuild_requested then
             rebuilt ⇐ rebuild_index env data_loader ;;
             if rebuilt then run_query_loop env rest
             else ret (Exit1, [])
           else
             loaded ⇐ try_except (load_index env ;;; ret true)
                                 (λ e, ret false) ;;
             if loaded then run_query_loop env rest
             else ret (Exit1, [])
       end
     else
       ready ⇐ setup_index env data_loader ;;
       if ready then run_query_loop env inputs
       else ret (Exit1, []))
    (λ e, ret (Exit1, [])).

(** ** Vocabulary of the further statements *)

(** The turn of the loop ends it: an ["exit"] line or Ctrl-C, at the
    prompt or later in the turn. *)
Definition ends_loop (ev : input_event) : bool :=
  match ev with
  | Line text => String.eqb (Py.lower (Py.strip text)) "exit"
  | Interrupt => true
  | EndOfInput => false
  | InterruptedLine _ _ => true
  end.

(** The turn sends a query to the engine: a line that is neither blank
    nor ["exit"]. *)
Definition asks (ev : input_event) : bool :=
  match ev with
  | Line text =>
      negb (String.eqb (Py.lower (Py.strip text)) "exit")
      && Py.truthy_str (Py.strip text)
  | _ => false
  end.

(** The turn is a query that Ctrl-C interrupted after its prompt had
    been handed to the completion backend. *)
Definition sent_before_interrupt (ev : input_event) : bool :=
  match ev with
  | InterruptedLine _ true => true
  | _ => false
  end.

(** The inputs before the first one that ends the loop. *)
Fixpoint before_end (inputs : list input_event) : list input_event :=
  match inputs with
  | [] => []
  | ev :: rest => if ends_loop ev then [] else ev :: before_end rest
  end.

(** The state with another [vectorstore] handle. *)
Definition with_vectorstore (w : World) (v : option VectorStore) : World :=
  {| fs := fs w;
     indexer := {| embedder := embedder (indexer w);
                   index_directory := index_directory (indexer w);
                   index_name := index_name (indexer w);
                   vectorstore := v |};
     prompts := prompts w |}.

(** The state in which the directory [d], a path that is not empty, has
    been made if nothing was at the path, and the state with another
    [Indexer] object. *)
Definition with_directory (w : World) (d : string) : World :=
  if exists_dir (fs w) d then w else with_fs w (mkdir (fs w) d).

Definition with_indexer (w : World) (i : Indexer) : World :=
  {| fs := fs w; indexer := i; prompts := prompts w |}.

(** ** A start-up for the small installation *)

Module Boot.

Definition groq_env : gmap string string :=
  {[ "GROQ_API_KEY" := "gsk-demo" ]}.

Definition libs (env_vars : gmap string string) : Startup :=
  {| environ := env_vars;
     HuggingFaceEmbeddings := λ name, Ok (mkEmbeddingModel name);
     OllamaLLM := λ m, Ok (Ollama_client m);
     ChatGroq := λ m, Ok (Groq_client m) |}.

(** An installation whose source directory holds one readable PDF. *)
Definition fs_one_pdf : FS :=
  Demo.fs_of {[ "pdfs" := Directory {[ "a.pdf" ]}; "index" := Directory ∅ ]}
    ∅.

Definition w_one_pdf : World := Demo.world_of fs_one_pdf None.

Definition w_rebuilt : World :=
  (rebuild_index Demo.env0 Demo.loader0 w_one_pdf).2.



Definition fs_index_is_file : FS :=
  Demo.fs_of {[ "pdfs" := Directory {[ "a.pdf" ]}; "index" := RegularFile ]}
    ∅.

Definition w_index_is_file : World :=
  Demo.world_of fs_index_is_file (Some (Demo.store_of [Demo.doc_a])).



(** A session: one question, then [exit]. *)
Definition session : list input_event :=
  [Line "animal behavior"; Line "  "; Line " Exit "].


(** A session with a line of white space and an [Exit] between no-break
    spaces, and a session whose first query is interrupted after its
    prompt was sent. *)
Definition session_no_break : list input_event :=
  [Line "animal behavior"; Line (Demo.nbsp +:+ " "); EndOfInput;
   Line (Demo.nbsp +:+ "Exit" +:+ Demo.nbsp); Line "never read"].

Definition session_interrupted : list input_event :=
  [InterruptedLine "animal behavior" true; Line "never read"].

(** A backend that fails with a [ValueError]. *)
Definition env_llm_down : Env :=
  {| PyPDFLoader_load := Demo.pdf_pages;
     FAISS_from_documents := λ docs _, Ok (Demo.store_of docs);
     FAISS_load_local := λ _ _ _, Ok (Demo.store_of [Demo.doc_a; Demo.doc_b]);
     llm_invoke := λ _, Raise (ValueError "model is required") |}.

End Boot.

(** * Properties *)

(** Unfolding of the monad and of the primitive operations. *)
Ltac py_unfold :=
  unfold bind, ret, raise, try_except, lift, get_fs, get_self, set_fs,
    set_vectorstore, log_prompt, os_path_isdir, os_path_exists_dir,
    os_path_exists, reraise_OSError;
  cbv zeta.

(** ** The Python helpers and the model, on examples *)

Example is_pdf_ignores_case :
  is_pdf "B.PDF" = true ∧ is_pdf "notes.txt" = false
  ∧ is_pdf "a.pdf.bak" = false.
Proof. by vm_compute. Qed.

Example strip_blank :
  Py.strip (concat_pages [Demo.page "  "; Demo.page Demo.nbsp; Demo.page ""])
  = EmptyString.
Proof. reflexivity. Qed.

(** [str.strip] takes the no-break space for white space, at both ends,
    and leaves it alone inside the text. *)
Example strip_no_break_space :
  Py.strip (Demo.nbsp +:+ " Exit" +:+ Demo.nbsp +:+ " ") = "Exit"
  ∧ Py.strip ("a" +:+ Demo.nbsp +:+ "b") = "a" +:+ Demo.nbsp +:+ "b"
  ∧ Py.lower (Py.strip ("YES" +:+ Demo.nbsp)) = "yes".
Proof. split_and!; reflexivity. Qed.

Example sorted_list_set_example :
  Py.sorted (Py.list_set ["b.pdf"; "a.pdf"; "b.pdf"]) = ["a.pdf"; "b.pdf"].
Proof. reflexivity. Qed.

Example index_exists_half : index_exists Demo.w_half = (Ok false, Demo.w_half).
Proof. reflexivity. Qed.

Example load_pdfs_fresh :
  ∃ docs,
    load_pdfs Demo.env0 Demo.loader0 Demo.w_fresh = (Ok docs, Demo.w_fresh)
    ∧ map source_of docs = ["a.pdf"; "B.PDF"].
Proof. eexists. split; by vm_compute. Qed.

(** ** The file system model *)

Lemma isdir_entries (f : FS) (d : string) :
  isdir f d = true ↔ is_empty d = false ∧ is_Some (entries f d).
Proof.
  unfold isdir. rewrite andb_true_iff, negb_true_iff, bool_decide_eq_true.
  done.
Qed.

Lemma exists_dir_lookup (f : FS) (d : string) :
  exists_dir f d = true ↔ is_empty d = false ∧ is_Some (dirs f !! d).
Proof.
  unfold exists_dir.
  rewrite andb_true_iff, negb_true_iff, bool_decide_eq_true. done.
Qed.

Lemma entries_lookup (f : FS) (d : string) :
  is_Some (entries f d) → is_Some (dirs f !! d).
Proof.
  unfold entries. destruct (dirs f !! d) as [[names|]|]; intros [x Hx];
    by try discriminate Hx.
Qed.

Lemma isdir_exists_dir (f : FS) (d : string) :
  isdir f d = true → exists_dir f d = true.
Proof.
  rewrite isdir_entries, exists_dir_lookup. intros [Hd He].
  split; [done|]. by apply entries_lookup.
Qed.

Lemma exists_entries (f : FS) (p : path) :
  exists_ f p = true → is_Some (entries f p.1).
Proof. unfold exists_. by destruct (entries f p.1). Qed.

Lemma exists_isdir (f : FS) (p : path) :
  is_empty p.1 = false → exists_ f p = true → isdir f p.1 = true.
Proof.
  intros Hd He. apply isdir_entries. split; [done|]. by apply exists_entries.
Qed.

Lemma entries_unlink (f : FS) (p : path) (d : string) :
  entries (unlink f p) d =
    if decide (d = p.1) then (λ names, names ∖ {[ p.2 ]}) <$> entries f d
    else entries f d.
Proof.
  unfold entries, unlink; simpl. rewrite lookup_alter.
  destruct (decide (p.1 = d)) as [->|Hne].
  - rewrite decide_True by done. by destruct (dirs f !! d) as [[names|]|].
  - by rewrite decide_False by done.
Qed.

Lemma entries_touch (f : FS) (p : path) (d : string) :
  entries (touch f p) d =
    if decide (d = p.1) then (λ names, names ∪ {[ p.2 ]}) <$> entries f d
    else entries f d.
Proof.
  unfold entries, touch; simpl. rewrite lookup_alter.
  destruct (decide (p.1 = d)) as [->|Hne].
  - rewrite decide_True by done. by destruct (dirs f !! d) as [[names|]|].
  - by rewrite decide_False by done.
Qed.

Lemma entries_mkdir (f : FS) (d d' : string) :
  entries (mkdir f d) d' = if decide (d' = d) then Some ∅ else entries f d'.
Proof.
  unfold entries, mkdir; simpl. destruct (decide (d' = d)) as [->|Hne].
  - by rewrite lookup_insert_eq.
  - by rewrite lookup_insert_ne.
Qed.

Lemma isdir_unlink (f : FS) (p : path) (d : string) :
  isdir (unlink f p) d = isdir f d.
Proof.
  unfold isdir. f_equal. apply bool_decide_ext. rewrite entries_unlink.
  case_decide; [|done]. by rewrite fmap_is_Some.
Qed.

Lemma exists_dir_unlink (f : FS) (p : path) (d : string) :
  exists_dir (unlink f p) d = exists_dir f d.
Proof.
  unfold exists_dir, unlink; simpl. f_equal. apply bool_decide_ext.
  rewrite lookup_alter. case_decide; subst; [|done]. by rewrite fmap_is_Some.
Qed.

Lemma listing_unlink (f : FS) (p : path) (d : string) :
  d ≠ p.1 → listing (unlink f p) d = listing f d.
Proof.
  intros Hne. unfold listing. rewrite entries_unlink.
  by rewrite decide_False by done.
Qed.

Lemma exists_unlink (f : FS) (p q : path) :
  exists_ (unlink f p) q = if decide (q = p) then false else exists_ f q.
Proof.
  destruct p as [d n], q as [d' n']. unfold exists_.
  rewrite entries_unlink; simpl. destruct (decide (d' = d)) as [->|Hd].
  - destruct (entries f d) as [names|] eqn:E; simpl.
    + case_decide as Hq.
      * inversion Hq; subst. apply bool_decide_eq_false.
        rewrite elem_of_difference, elem_of_singleton. tauto.
      * apply bool_decide_ext.
        rewrite elem_of_difference, elem_of_singleton.
        split; [tauto|]. intros Hin. split; [done|]. intros ->. by apply Hq.
    + by case_decide.
  - case_decide as Hq; [by inversion Hq|done].
Qed.

Lemma isdir_touch (f : FS) (p : path) (d : string) :
  isdir (touch f p) d = isdir f d.
Proof.
  unfold isdir. f_equal. apply bool_decide_ext. rewrite entries_touch.
  case_decide; [|done]. by rewrite fmap_is_Some.
Qed.

Lemma exists_dir_touch (f : FS) (p : path) (d : string) :
  exists_dir (touch f p) d = exists_dir f d.
Proof.
  unfold exists_dir, touch; simpl. f_equal. apply bool_decide_ext.
  rewrite lookup_alter. case_decide; subst; [|done]. by rewrite fmap_is_Some.
Qed.

Lemma exists_touch (f : FS) (p q : path) :
  is_Some (entries f p.1) →
  exists_ (touch f p) q = if decide (q = p) then true else exists_ f q.
Proof.
  destruct p as [d n], q as [d' n']. unfold exists_; simpl.
  intros [names E]. rewrite entries_touch; simpl.
  destruct (decide (d' = d)) as [->|Hd].
  - rewrite E; simpl. case_decide as Hq.
    + inversion Hq; subst. apply bool_decide_eq_true.
      rewrite elem_of_union, elem_of_singleton. tauto.
    + apply bool_decide_ext. rewrite elem_of_union, elem_of_singleton.
      split; [|tauto]. intros [Hin| ->]; [done|]. by destruct Hq.
  - case_decide as Hq; [by inversion Hq|done].
Qed.

Lemma isdir_mkdir (f : FS) (d d' : string) :
  isdir (mkdir f d) d' =
    if decide (d' = d) then negb (is_empty d) else isdir f d'.
Proof.
  unfold isdir. rewrite entries_mkdir. case_decide as Hd; [|done].
  subst. rewrite bool_decide_eq_true_2 by by eexists.
  apply andb_true_r.
Qed.


Lemma exists_mkdir (f : FS) (d : string) (q : path) :
  entries f d = None → exists_ (mkdir f d) q = exists_ f q.
Proof.
  intros Hd. unfold exists_. rewrite entries_mkdir.
  case_decide as Hq; [|done]. rewrite Hq, Hd.
  apply bool_decide_eq_false. apply not_elem_of_empty.
Qed.

Lemma entries_None (f : FS) (d : string) :
  dirs f !! d = None → entries f d = None.
Proof. unfold entries. by intros ->. Qed.

(** The two artifact files of a location are different files. *)
Lemma append_inj_l (s a b : string) : s +:+ a = s +:+ b → a = b.
Proof. induction s as [|c s IH]; simpl; [done|]. intros [=]. auto. Qed.

Lemma faiss_file_ne_pkl_file (self : Indexer) :
  faiss_file self ≠ pkl_file self.
Proof.
  unfold faiss_file, pkl_file, add_suffix, _get_index_path, os_path_join.
  simpl. intros [= H]. by apply append_inj_l in H.
Qed.

(** ** Primitive operations *)

Lemma os_remove_eq (p : path) (w : World) :
  os_remove p w =
    if exists_ (fs w) p then
      if bool_decide (p ∈ protected (fs w)) then
        (Raise (OSError "Operation not permitted"), w)
      else (Ok tt, with_fs w (unlink (fs w) p))
    else (Raise (FileNotFoundError "No such file or directory"), w).
Proof.
  unfold os_remove, bind, get_fs, set_fs, raise.
  destruct (exists_ (fs w) p); [|done].
  by destruct (bool_decide (p ∈ protected (fs w))).
Qed.

Lemma write_file_eq (p : path) (refusal : exn) (w : World) :
  write_file p refusal w =
    match entries (fs w) p.1 with
    | None => (Raise (FileNotFoundError "No such file or directory"), w)
    | Some _ =>
        if bool_decide (p ∈ protected (fs w)) then (Raise refusal, w)
        else
          match failing (fs w) !! p with
          | Some e => (Raise e, with_fs w (touch (fs w) p))
          | None => (Ok tt, with_fs w (touch (fs w) p))
          end
    end.
Proof.
  unfold write_file, bind, get_fs, set_fs, raise.
  destruct (entries (fs w) p.1); [|done].
  destruct (bool_decide (p ∈ protected (fs w))); [done|].
  by destruct (failing (fs w) !! p).
Qed.

Lemma os_makedirs_eq (d : string) (w : World) :
  os_makedirs d w =
    if is_empty d then
      (Raise (FileNotFoundError "No such file or directory"), w)
    else if exists_dir (fs w) d then (Raise (OSError "File exists"), w)
    else if bool_decide (d ∈ denied (fs w)) then
      (Raise (OSError "Permission denied"), w)
    else (Ok tt, with_fs w (mkdir (fs w) d)).
Proof.
  unfold os_makedirs, bind, get_fs, set_fs, raise.
  destruct (is_empty d); [done|]. destruct (exists_dir (fs w) d); [done|].
  by destruct (bool_decide (d ∈ denied (fs w))).
Qed.

Lemma path_mkdir_eq (d : string) (w : World) :
  path_mkdir d w =
    if is_empty d then (Ok tt, w)
    else
      match dirs (fs w) !! d with
      | Some (Directory _) => (Ok tt, w)
      | Some RegularFile => (Raise (OSError "File exists"), w)
      | None =>
          if bool_decide (d ∈ denied (fs w)) then
            (Raise (OSError "Permission denied"), w)
          else (Ok tt, with_fs w (mkdir (fs w) d))
      end.
Proof.
  unfold path_mkdir, bind, get_fs, set_fs, raise, ret.
  destruct (is_empty d); [done|].
  destruct (dirs (fs w) !! d) as [[names|]|]; try done.
  by destruct (bool_decide (d ∈ denied (fs w))).
Qed.

(** The guard [if not os.path.exists(d): os.makedirs(d)] of [save_index],
    [create_n_save_index] and [create_directory]. *)
Lemma ensure_directory_eq (d : string) (w : World) :
  ensure_directory d w =
    if exists_dir (fs w) d then (Ok tt, w)
    else if is_empty d then
      (Raise (FileNotFoundError "No such file or directory"), w)
    else if bool_decide (d ∈ denied (fs w)) then
      (Raise (OSError "Permission denied"), w)
    else (Ok tt, with_fs w (mkdir (fs w) d)).
Proof.
  unfold ensure_directory, os_path_exists_dir, bind, get_fs, ret.
  destruct (exists_dir (fs w) d) eqn:E; simpl; [done|].
  by rewrite os_makedirs_eq, E.
Qed.

Lemma index_exists_eq (w : World) :
  index_exists w =
    (Ok (isdir (fs w) (index_directory (indexer w))
         && exists_ (fs w) (faiss_file (indexer w))
         && exists_ (fs w) (pkl_file (indexer w))), w).
Proof. reflexivity. Qed.

(** ** Removal of the artifacts *)

Lemma _remove_existing_index_eq (w : World) :
  _remove_existing_index w =
    let self := indexer w in
    if removal_blocked (fs w) (faiss_file self) then
      (Raise (OSError "Operation not permitted"), w)
    else
      let w1 := if exists_ (fs w) (faiss_file self)
                then with_fs w (unlink (fs w) (faiss_file self)) else w in
      if removal_blocked (fs w1) (pkl_file self) then
        (Raise (OSError "Operation not permitted"), w1)
      else
        (Ok tt, if exists_ (fs w1) (pkl_file self)
                then with_fs w1 (unlink (fs w1) (pkl_file self)) else w1).
Proof.
  unfold _remove_existing_index, removal_blocked, os_remove. py_unfold.
  destruct (exists_ (fs w) (faiss_file (indexer w))) eqn:EF;
    simpl; rewrite ?EF; simpl.
  - destruct (bool_decide (faiss_file (indexer w) ∈ protected (fs w)));
      simpl; [done|].
    destruct (exists_ (unlink (fs w) (faiss_file (indexer w)))
                (pkl_file (indexer w))) eqn:EP; simpl; rewrite ?EP; simpl;
      [|done].
    by destruct (bool_decide (pkl_file (indexer w) ∈ protected (fs w))).
  - destruct (exists_ (fs w) (pkl_file (indexer w))) eqn:EP;
      simpl; rewrite ?EP; simpl; [|done].
    by destruct (bool_decide (pkl_file (indexer w) ∈ protected (fs w))).
Qed.

(** After a removal that completed, neither artifact is left and nothing
    else was touched. *)
Lemma _remove_existing_index_ok (w w' : World) :
  _remove_existing_index w = (Ok tt, w') →
  exists_ (fs w') (faiss_file (indexer w)) = false
  ∧ exists_ (fs w') (pkl_file (indexer w)) = false
  ∧ indexer w' = indexer w
  ∧ prompts w' = prompts w
  ∧ (∀ d, isdir (fs w') d = isdir (fs w) d)
  ∧ (∀ q, q ≠ faiss_file (indexer w) → q ≠ pkl_file (indexer w) →
          exists_ (fs w') q = exists_ (fs w) q).
Proof.
  rewrite _remove_existing_index_eq. cbv zeta.
  pose proof (faiss_file_ne_pkl_file (indexer w)) as Hne.
  destruct (removal_blocked (fs w) (faiss_file (indexer w))); [done|].
  destruct (exists_ (fs w) (faiss_file (indexer w))) eqn:EF.
  - destruct (removal_blocked _ (pkl_file (indexer w))); [done|].
    destruct (exists_ (fs (with_fs w _)) (pkl_file (indexer w))) eqn:EP;
      intros [= <-]; simpl in *.
    + rewrite !exists_unlink. repeat case_decide; try done.
      repeat split; try done.
      * intros d. by rewrite !isdir_unlink.
      * intros q Hqf Hqp. rewrite !exists_unlink. by repeat case_decide.
    + rewrite EP, exists_unlink. case_decide; [|done].
      repeat split; try done.
      * intros d. by rewrite isdir_unlink.
      * intros q Hqf Hqp. rewrite exists_unlink. by case_decide.
  - destruct (removal_blocked _ (pkl_file (indexer w))); [done|].
    destruct (exists_ (fs w) (pkl_file (indexer w))) eqn:EP;
      intros [= <-]; simpl in *.
    + rewrite !exists_unlink. repeat case_decide; try done.
      repeat split; try done.
      * intros d. by rewrite isdir_unlink.
      * intros q Hqf Hqp. rewrite exists_unlink. by case_decide.
    + done.
Qed.

(** ** The index engine *)

(** C1. Whatever the query and [k], [search] on an engine whose
    [vectorstore] handle is absent raises the [ValueError] "Index not loaded
    or created." (the state error of the specification) and leaves the state
    as it was; it never returns a result sequence. *)
Theorem search_unloaded_raises (query : string) (k : Z) (w : World) :
  vectorstore (indexer w) = None →
  search query k w = (Raise (ValueError "Index not loaded or created."), w)
  ∧ ∀ results w', search query k w ≠ (Ok results, w').
Proof.
  intros Hnone.
  assert (search query k w
          = (Raise (ValueError "Index not loaded or created."), w)) as Heq.
  { unfold search. py_unfold. by rewrite Hnone. }
  split; [done|]. intros results w'. by rewrite Heq.
Qed.

Lemma search_unloaded_raises_witness :
  vectorstore (indexer Demo.w_fresh) = None
  ∧ search "animal behavior" 2 Demo.w_fresh
    = (Raise (ValueError "Index not loaded or created."), Demo.w_fresh).
Proof.
  split; [reflexivity|].
  apply (search_unloaded_raises "animal behavior" 2 Demo.w_fresh).
  reflexivity.
Defined.




(** C10. [_remove_existing_index] deletes each artifact file on its own
    and only when it is there: a missing file is passed over without error,
    so with a single file present (and deletable) the removal completes and
    leaves neither.  It raises only when the deletion of a file that is
    present fails; the exception is an [OSError] and the removal stops
    there, the file that refused being still in place. *)
Theorem remove_existing_index_each_if_present (w : World) :
  let self := indexer w in
  let F := faiss_file self in
  let P := pkl_file self in
  (exists_ (fs w) F = false → exists_ (fs w) P = false →
     _remove_existing_index w = (Ok tt, w))
  ∧ (exists_ (fs w) F = false → exists_ (fs w) P = true →
     P ∉ protected (fs w) →
     _remove_existing_index w = (Ok tt, with_fs w (unlink (fs w) P)))
  ∧ (exists_ (fs w) F = true → exists_ (fs w) P = false →
     F ∉ protected (fs w) →
     _remove_existing_index w = (Ok tt, with_fs w (unlink (fs w) F)))
  ∧ (exists_ (fs w) F = true → exists_ (fs w) P = true →
     F ∉ protected (fs w) → P ∉ protected (fs w) →
     _remove_existing_index w
     = (Ok tt, with_fs w (unlink (unlink (fs w) F) P)))
  ∧ (∀ w', _remove_existing_index w = (Ok tt, w') →
       exists_ (fs w') F = false ∧ exists_ (fs w') P = false)
  ∧ (∀ e w', _remove_existing_index w = (Raise e, w') →
       is_OSError e = true
       ∧ ((exists_ (fs w) F = true ∧ F ∈ protected (fs w) ∧ w' = w)
          ∨ (exists_ (fs w) P = true ∧ P ∈ protected (fs w)
             ∧ exists_ (fs w') F = false ∧ exists_ (fs w') P = true))).
Proof.
  intros self F P.
  pose proof (faiss_file_ne_pkl_file (indexer w)) as Hne. fold self F P in Hne.
  assert (∀ f, exists_ (unlink f F) P = exists_ f P) as HP.
  { intros f. rewrite exists_unlink. case_decide; [by subst|done]. }
  pose proof (_remove_existing_index_eq w) as Heq. cbv zeta in Heq.
  fold self F P in Heq. unfold removal_blocked in Heq.
  split_and!.
  - intros EF EP. rewrite Heq, EF. simpl. by rewrite EP.
  - intros EF EP HpP. rewrite Heq, EF. simpl. rewrite EP. simpl.
    by rewrite bool_decide_eq_false_2.
  - intros EF EP HpF. rewrite Heq, EF. simpl. rewrite HP, EP. simpl.
    by rewrite bool_decide_eq_false_2.
  - intros EF EP HpF HpP. rewrite Heq, EF. simpl. rewrite HP, EP. simpl.
    by rewrite !bool_decide_eq_false_2.
  - intros w' H. apply _remove_existing_index_ok in H. tauto.
  - intros e w'. rewrite Heq. clear Heq.
    destruct (exists_ (fs w) F) eqn:EF; simpl.
    + destruct (bool_decide (F ∈ protected (fs w))) eqn:HpF.
      * intros [= <- <-]. split; [reflexivity|]. left.
        by apply bool_decide_eq_true in HpF.
      * rewrite HP.
        destruct (exists_ (fs w) P) eqn:EP; simpl; [|done].
        destruct (bool_decide (P ∈ protected (fs w))) eqn:HpP; [|done].
        intros [= <- <-]. split; [reflexivity|]. right. simpl.
        rewrite HP, EP, exists_unlink.
        apply bool_decide_eq_true in HpP.
        rewrite decide_True by reflexivity. done.
    + destruct (exists_ (fs w) P) eqn:EP; simpl; [|done].
      destruct (bool_decide (P ∈ protected (fs w))) eqn:HpP; [|done].
      intros [= <- <-]. split; [reflexivity|]. right.
      by apply bool_decide_eq_true in HpP.
Qed.

(** The scenario in which the vector file is already gone: the docstore
    file is deleted and the removal completes. *)
Lemma remove_existing_index_each_if_present_witness :
  _remove_existing_index Demo.w_half
  = (Ok tt,
     with_fs Demo.w_half
       (unlink (fs Demo.w_half) (pkl_file (indexer Demo.w_half)))).
Proof.
  destruct (remove_existing_index_each_if_present Demo.w_half)
    as (_ & Hpkl_only & _).
  apply Hpkl_only.
  - reflexivity.
  - reflexivity.
  - vm_compute. intros H. discriminate H.
Defined.

(** The demonstration store keeps the bound. *)
Lemma store_of_returns_at_most_k (docs : list Document) :
  returns_at_most_k (Demo.store_of docs).
Proof.
  intros q k results. simpl. destruct (k <=? 0)%Z; [done|].
  intros [= <-]. rewrite length_take. lia.
Qed.

Lemma search_loaded_eq (query : string) (k : Z) (w : World)
    (vs : VectorStore) :
  vectorstore (indexer w) = Some vs →
  search query k w =
    (Ok (match similarity_search vs query k with
         | Ok results => results
         | Raise _ => []
         end), w).
Proof.
  intros Hvs. unfold search. py_unfold. rewrite Hvs.
  by destruct (similarity_search vs query k).
Qed.

(** C3. On a loaded engine [search] always returns a list and leaves the
    state alone.  The list is the library's answer, so it has at most [k]
    elements whenever the library keeps its bound (for a [k] below zero
    that means none at all); a search that matches nothing gives the empty
    list, and so does a search in which the library raises: the exception
    does not leave [search]. *)
Theorem search_loaded_at_most_k (query : string) (k : Z) (w : World)
    (vs : VectorStore) :
  vectorstore (indexer w) = Some vs →
  returns_at_most_k vs →
  ∃ results : list Document,
    search query k w = (Ok results, w)
    ∧ (length results ≤ Z.to_nat k)%nat
    ∧ (0 ≤ k → Z.of_nat (length results) ≤ k)
    ∧ (similarity_search vs query k = Ok [] → results = [])
    ∧ (∀ e, similarity_search vs query k = Raise e → results = []).
Proof.
  intros Hvs Hk. rewrite (search_loaded_eq _ _ _ _ Hvs).
  eexists. split; [reflexivity|].
  assert (length (match similarity_search vs query k with
                  | Ok results => results
                  | Raise _ => []
                  end) ≤ Z.to_nat k)%nat as Hlen.
  { destruct (similarity_search vs query k) as [results|e] eqn:E.
    - by apply (Hk query k).
    - simpl. lia. }
  split_and!.
  - exact Hlen.
  - intros Hpos. lia.
  - by intros ->.
  - by intros e ->.
Qed.

Lemma search_loaded_at_most_k_witness :
  ∃ results : list Document,
    search "animal behavior" 1 Demo.w_loaded = (Ok results, Demo.w_loaded)
    ∧ (length results ≤ 1)%nat.
Proof.
  destruct (search_loaded_at_most_k "animal behavior" 1 Demo.w_loaded
              (Demo.store_of [Demo.doc_b; Demo.doc_a]) eq_refl
              (store_of_returns_at_most_k _))
    as (results & Hs & Hlen & _).
  exists results. split; [exact Hs | exact Hlen].
Defined.

(** ** The order of [sorted] *)

Lemma str_le_nil (b : string) : Py.str_le EmptyString b.
Proof. by destruct b. Qed.

(** [str_le] compares the first characters and, when they agree, the
    rest: the lexicographic order. *)
Lemma str_le_cons (x y : ascii) (a b : string) :
  Py.str_le (String x a) (String y b)
  ↔ (N_of_ascii x < N_of_ascii y)%N ∨ (x = y ∧ Py.str_le a b).
Proof.
  unfold Py.str_le, String.leb. simpl. unfold Ascii.compare.
  destruct (N.compare_spec (N_of_ascii x) (N_of_ascii y)) as [E|E|E].
  - assert (x = y) as ->.
    { by rewrite <- (ascii_N_embedding x), <- (ascii_N_embedding y), E. }
    split; [by right|]. intros [Hlt|[_ H]]; [lia|done].
  - split; [by left|done].
  - split; [done|]. intros [Hlt|[-> _]]; lia.
Qed.

Lemma str_le_cons_nil (x : ascii) (a : string) :
  ¬ Py.str_le (String x a) EmptyString.
Proof. unfold Py.str_le, String.leb. simpl. done. Qed.

Global Instance str_le_trans : Transitive Py.str_le.
Proof.
  intros a. induction a as [|x a IH]; intros b c Hab Hbc.
  - apply str_le_nil.
  - destruct b as [|y b]; [by apply str_le_cons_nil in Hab|].
    destruct c as [|z c]; [by apply str_le_cons_nil in Hbc|].
    apply str_le_cons in Hab, Hbc. apply str_le_cons.
    destruct Hab as [Hxy|[-> Hab]], Hbc as [Hyz|[-> Hbc]].
    + left. lia.
    + by left.
    + by left.
    + right. split; [done|]. by apply (IH b).
Qed.

Global Instance str_le_total : Total Py.str_le.
Proof. intros a b. apply String.leb_total. Qed.

Global Instance str_le_antisymm : AntiSymm eq Py.str_le.
Proof. intros a b. apply String.leb_antisym. Qed.

Lemma sorted_list_set_spec (l : list string) :
  NoDup (Py.sorted (Py.list_set l))
  ∧ StronglySorted Py.str_le (Py.sorted (Py.list_set l))
  ∧ ∀ s, s ∈ Py.sorted (Py.list_set l) ↔ s ∈ l.
Proof.
  unfold Py.sorted, Py.list_set.
  pose proof (merge_sort_Permutation Py.str_le (remove_dups l)) as Hperm.
  split_and!.
  - rewrite Hperm. apply NoDup_remove_dups.
  - apply StronglySorted_merge_sort; apply _.
  - intros s. rewrite Hperm. apply elem_of_remove_dups.
Qed.

(** ** The retrieval orchestrator *)

Lemma search_ok_loaded (query : string) (k : Z) (w : World)
    (results : list Document) :
  (search query k w).1 = Ok results →
  ∃ vs, vectorstore (indexer w) = Some vs
        ∧ search query k w = (Ok results, w).
Proof.
  destruct (vectorstore (indexer w)) as [vs|] eqn:Hvs.
  - rewrite (search_loaded_eq _ _ _ _ Hvs). simpl. intros [= <-]. by exists vs.
  - unfold search. py_unfold. by rewrite Hvs.
Qed.

Lemma get_relevant_docs_loaded (query : string) (w : World)
    (results : list Document) :
  (search query search_default_k w).1 = Ok results →
  get_relevant_docs query w = (Ok results, w).
Proof.
  intros (vs & Hvs & Hs)%search_ok_loaded.
  unfold get_relevant_docs. py_unfold. by rewrite Hvs, Hs.
Qed.



(** C7. When [search] yields no document for the query, [query] answers
    the fixed message that no relevant PDF was found, word for word; the
    state is the one it started from, so no prompt reached the completion
    backend. *)
Theorem query_no_results_fixed_message (env : Env) (user_query : string)
    (w : World) :
  (search user_query search_default_k w).1 = Ok [] →
  query env user_query w
  = (Ok "I could not find any PDF files in the index that seem relevant to your query.",
     w)
  ∧ prompts (query env user_query w).2 = prompts w.
Proof.
  intros Hg%get_relevant_docs_loaded.
  assert (query env user_query w = (Ok no_relevant_message, w)) as Hq.
  { unfold query, try_except, bind. by rewrite Hg. }
  by rewrite Hq.
Qed.

Lemma query_no_results_fixed_message_witness :
  (search "animal behavior" search_default_k Demo.w_loaded_empty).1 = Ok []
  ∧ query Demo.env0 "animal behavior" Demo.w_loaded_empty
    = (Ok "I could not find any PDF files in the index that seem relevant to your query.",
       Demo.w_loaded_empty)
  ∧ prompts (query Demo.env0 "animal behavior" Demo.w_loaded_empty).2 = [].
Proof.
  split; [reflexivity|].
  apply (query_no_results_fixed_message Demo.env0 "animal behavior"
           Demo.w_loaded_empty eq_refl).
Defined.

Lemma append_assoc (a b c : string) : (a +:+ b) +:+ c = a +:+ (b +:+ c).
Proof.
  induction a as [|x a IH]; [done|].
  change (String x ((a +:+ b) +:+ c) = String x (a +:+ (b +:+ c))).
  by rewrite IH.
Qed.

(** C8. When [search] yields documents, the names [query] works with are
    the source names of these documents (["Unknown Source"] for a document
    without one), without repetition and in increasing lexicographic order.
    The prompt sent to the completion backend lists them, one to a line
    after a dash, between its fixed sentences and the user's query; and
    whatever text the backend returns, the answer is the fixed opening
    line, the same list, an empty line, the line [LLM Suggestion:] and the
    stripped text. *)
Theorem query_prepends_sorted_candidates (env : Env) (user_query : string)
    (w : World) (docs : list Document) (text : string) :
  let name_of := λ d : Document,
    default "Unknown Source" (metadata d !! "source") in
  let names := Py.sorted (Py.list_set (map name_of docs)) in
  let listed := "- " +:+ String.concat (Py.nl +:+ "- ") names in
  let prompt :=
    "Based on the user's query and an analysis of the content of available PDF documents, the following PDF files were identified as potentially relevant:"
    +:+ Py.nl +:+ "                        Potentially Relevant PDF Filenames:"
    +:+ Py.nl +:+ "                        " +:+ listed
    +:+ Py.nl +:+ "                        User Query: "
    +:+ Py.dquote +:+ user_query +:+ Py.dquote
    +:+ Py.nl
    +:+ "                        Please analyze the user's query and the list of filenames. Suggest which of these PDF files the user should look into to find the information they are seeking. Explain briefly why each suggested file might be relevant, if possible. If none seem particularly relevant despite being listed, state that. Be concise."
    +:+ Py.nl +:+ "                        Suggested files to check:" in
  (search user_query search_default_k w).1 = Ok docs →
  docs ≠ [] →
  llm_invoke env prompt = Ok text →
  NoDup names
  ∧ StronglySorted Py.str_le names
  ∧ (∀ s, s ∈ names ↔ ∃ d, d ∈ docs ∧ name_of d = s)
  ∧ query env user_query w
    = (Ok ("Based on your query, the following PDF files might contain relevant information:"
           +:+ Py.nl +:+ listed +:+ Py.nl +:+ Py.nl
           +:+ "LLM Suggestion:" +:+ Py.nl +:+ Py.strip text),
       with_prompt w prompt).
Proof.
  intros name_of names listed prompt Hg%get_relevant_docs_loaded Hdocs Hllm.
  destruct (sorted_list_set_spec (map name_of docs)) as (Hnd & Hs & Hin).
  split_and!; [done|done| |].
  - intros s. unfold names. rewrite Hin, list_elem_of_fmap. split.
    + intros (d & -> & Hd). by exists d.
    + intros (d & Hd & <-). by exists d.
  - assert (build_prompt names user_query = prompt) as Hprompt
      by reflexivity.
    unfold query, try_except, bind at 1. rewrite Hg.
    destruct docs as [|d docs]; [done|]. simpl Py.truthy_list. cbv iota.
    simpl negb. cbv iota zeta.
    change (map source_of (d :: docs)) with (map name_of (d :: docs)).
    fold names. rewrite Hprompt.
    unfold bind, generate_response, bind, log_prompt, lift.
    rewrite Hllm. unfold with_prompt. f_equal. f_equal.
    unfold response_header, bullet_list, Py.join. fold listed.
    by rewrite !append_assoc.
Qed.

Lemma query_prepends_sorted_candidates_witness :
  query Demo.env0 "animal behavior" Demo.w_loaded
  = (Ok ("Based on your query, the following PDF files might contain relevant information:"
         +:+ String "010" ("- a.pdf"
         +:+ String "010" ("- b.pdf"
         +:+ String "010" (String "010" ("LLM Suggestion:"
         +:+ String "010" "Open a.pdf first."))))),
     with_prompt Demo.w_loaded
       ("Based on the user's query and an analysis of the content of available PDF documents, the following PDF files were identified as potentially relevant:"
        +:+ String "010" ("                        Potentially Relevant PDF Filenames:"
        +:+ String "010" ("                        - a.pdf"
        +:+ String "010" ("- b.pdf"
        +:+ String "010" ("                        User Query: "
        +:+ String "034" ("animal behavior"
        +:+ String "034" (String "010" ("                        Please analyze the user's query and the list of filenames. Suggest which of these PDF files the user should look into to find the information they are seeking. Explain briefly why each suggested file might be relevant, if possible. If none seem particularly relevant despite being listed, state that. Be concise."
        +:+ String "010" "                        Suggested files to check:"))))))))).
Proof.
  apply (query_prepends_sorted_candidates Demo.env0 "animal behavior"
           Demo.w_loaded [Demo.doc_b; Demo.doc_a] " Open a.pdf first. ").
  - reflexivity.
  - discriminate.
  - reflexivity.
Defined.

(** ** The document unit builder *)

Lemma truthy_str_true (s : string) :
  Py.truthy_str s = true ↔ s ≠ EmptyString.
Proof. by destruct s. Qed.

Lemma truthy_list_true {A} (l : list A) : Py.truthy_list l = true ↔ l ≠ [].
Proof. by destruct l. Qed.

Lemma load_pdfs_body_eq (env : Env) (self : DataLoader) (filename : string)
    (acc : list Document) (n : nat) (w : World) :
  ∃ n', load_pdfs_body env self filename (acc, n) w
        = (Ok (acc ++ option_list (unit_of env self filename), n'), w).
Proof.
  unfold load_pdfs_body, unit_of. py_unfold.
  destruct (is_pdf filename).
  - destruct (PyPDFLoader_load env _) as [pages|e]; simpl.
    + destruct (Py.truthy_list pages); simpl.
      * destruct (Py.truthy_str (Py.strip (concat_pages pages))); simpl;
          eexists; by rewrite ?app_nil_r.
      * eexists; by rewrite app_nil_r.
    + eexists; by rewrite app_nil_r.
  - eexists; by rewrite app_nil_r.
Qed.

Lemma for_each_cons {A S : Type} (x : A) (l : list A) (body : A → S → M S)
    (s : S) :
  for_each (x :: l) body s = bind (body x s) (λ s', for_each l body s').
Proof. reflexivity. Qed.

Lemma for_each_load_pdfs_body (env : Env) (self : DataLoader)
    (filenames : list string) (acc : list Document) (n : nat) (w : World) :
  ∃ n', for_each filenames (load_pdfs_body env self) (acc, n) w
        = (Ok (acc ++ omap (unit_of env self) filenames, n'), w).
Proof.
  revert acc n. induction filenames as [|f filenames IH]; intros acc n.
  - exists n. simpl. by rewrite app_nil_r.
  - destruct (load_pdfs_body_eq env self f acc n w) as [n1 H1].
    destruct (IH (acc ++ option_list (unit_of env self f)) n1) as [n2 H2].
    exists n2. rewrite for_each_cons. unfold bind. rewrite H1, H2.
    rewrite <- app_assoc. simpl omap. by destruct (unit_of env self f).
Qed.

Lemma os_listdir_eq (d : string) (w : World) :
  os_listdir d w =
    match listing (fs w) d with
    | Some names => (Ok (elements names), w)
    | None =>
        (Raise (if negb (is_empty d)
                   && bool_decide (dirs (fs w) !! d = Some RegularFile)
                then OSError "Not a directory"
                else FileNotFoundError "No such file or directory"), w)
    end.
Proof.
  unfold os_listdir, listing, entries. py_unfold.
  destruct (is_empty d); [done|]. simpl.
  by destruct (dirs (fs w) !! d) as [[names|]|].
Qed.

Lemma load_pdfs_eq (env : Env) (self : DataLoader) (w : World)
    (names : gset string) :
  listing (fs w) (pdf_directory self) = Some names →
  load_pdfs env self w = (Ok (omap (unit_of env self) (elements names)), w).
Proof.
  intros Hdir. unfold load_pdfs. unfold bind at 1.
  rewrite os_listdir_eq, Hdir. py_unfold.
  destruct (for_each_load_pdfs_body env self (elements names) [] 0%nat w)
    as [n' ->].
  done.
Qed.

Lemma load_pdfs_missing_directory (env : Env) (self : DataLoader) (w : World) :
  dirs (fs w) !! pdf_directory self = None →
  load_pdfs env self w
  = (Raise (FileNotFoundError "No such file or directory"), w).
Proof.
  intros Hdir. unfold load_pdfs. unfold bind at 1.
  rewrite os_listdir_eq. unfold listing, entries. rewrite Hdir.
  rewrite bool_decide_eq_false_2 by done. rewrite andb_false_r.
  by destruct (is_empty (pdf_directory self)).
Qed.

Lemma load_pdfs_no_listing (env : Env) (self : DataLoader) (w : World) :
  listing (fs w) (pdf_directory self) = None →
  ∃ e, load_pdfs env self w = (Raise e, w).
Proof.
  intros Hdir. unfold load_pdfs. unfold bind at 1.
  rewrite os_listdir_eq, Hdir. by eexists.
Qed.

Lemma unit_of_Some (env : Env) (self : DataLoader) (f : string)
    (d : Document) :
  unit_of env self f = Some d ↔
  is_pdf f = true
  ∧ ∃ pages,
      PyPDFLoader_load env (os_path_join (pdf_directory self) f) = Ok pages
      ∧ pages ≠ []
      ∧ Py.strip (concat_pages pages) ≠ EmptyString
      ∧ d = {| page_content := concat_pages pages;
               metadata := {[ "source" := f ]} |}.
Proof.
  unfold unit_of. destruct (is_pdf f); [|split; [done | by intros [? _]]].
  destruct (PyPDFLoader_load env _) as [pages|e];
    [|split; [done | by intros (_ & ? & ? & _)]].
  destruct (Py.truthy_list pages) eqn:Hl; simpl.
  - apply truthy_list_true in Hl.
    destruct (Py.truthy_str _) eqn:Hs.
    + apply truthy_str_true in Hs. split.
      * intros [= <-]. split; [done|]. by exists pages.
      * intros (_ & pages' & [= <-] & _ & _ & ->). done.
    + split; [done|]. intros (_ & pages' & [= <-] & _ & Hs' & _).
      apply truthy_str_true in Hs'. congruence.
  - split; [done|]. intros (_ & pages' & [= <-] & Hl' & _).
    apply truthy_list_true in Hl'. congruence.
Qed.

Lemma source_of_unit (env : Env) (self : DataLoader) (f : string)
    (d : Document) :
  unit_of env self f = Some d → source_of d = f.
Proof.
  intros (_ & pages & _ & _ & _ & ->)%unit_of_Some.
  unfold source_of. simpl. by rewrite lookup_singleton_eq.
Qed.

Lemma omap_cons_app {A B : Type} (h : A → option B) (x : A) (l : list A) :
  omap h (x :: l) = option_list (h x) ++ omap h l.
Proof. simpl. by destruct (h x). Qed.

(** Among the units of a listing without repetition, those named [f]. *)
Lemma filter_source_omap (env : Env) (self : DataLoader) (f : string)
    (l : list string) :
  NoDup l →
  filter (λ d, source_of d = f) (omap (unit_of env self) l)
  = if decide (f ∈ l) then option_list (unit_of env self f) else [].
Proof.
  induction l as [|g l IH]; intros Hnd.
  - rewrite decide_False by apply not_elem_of_nil. done.
  - apply NoDup_cons in Hnd as [Hg Hnd]. specialize (IH Hnd).
    rewrite omap_cons_app, filter_app.
    assert (filter (λ d, source_of d = f) (option_list (unit_of env self g))
            = if decide (g = f) then option_list (unit_of env self g) else [])
      as Hhead.
    { destruct (unit_of env self g) as [d|] eqn:Hu; simpl.
      - rewrite filter_cons, filter_nil, (source_of_unit _ _ _ _ Hu).
        by destruct (decide (g = f)).
      - by destruct (decide (g = f)). }
    rewrite Hhead, IH. destruct (decide (g = f)) as [->|Hne].
    + rewrite (decide_False (P := f ∈ l)) by done.
      rewrite decide_True by apply list_elem_of_here. by rewrite app_nil_r.
    + destruct (decide (f ∈ l)) as [Hin|Hin].
      * rewrite decide_True by by apply list_elem_of_further. done.
      * rewrite decide_False; [done|].
        rewrite elem_of_cons. intros [->|?]; done.
Qed.

(** C9. A scan of a directory that can be listed always returns, without
    touching the state, whatever the parser does on any of the files.  In
    the list it returns, a PDF file of the directory whose pages were read
    and hold more than white space is represented by exactly one document,
    made of the joined text of its pages and tagged with the file name as
    source; a file on which the parser raised, or whose text is empty or
    white space only (the white space of [str.strip], which includes the
    no-break space), is represented by none, and so is a file whose name
    does not end in [.pdf]; and every document of the list holds text that
    is not blank and stands for a PDF file of the directory. *)
Theorem load_pdfs_one_unit_per_file (env : Env) (self : DataLoader)
    (w : World) (names : gset string) :
  listing (fs w) (pdf_directory self) = Some names →
  ∃ docs : list Document,
    load_pdfs env self w = (Ok docs, w)
    ∧ (∀ f pages,
         f ∈ names → is_pdf f = true →
         PyPDFLoader_load env (os_path_join (pdf_directory self) f)
         = Ok pages →
         pages ≠ [] →
         Py.strip (concat_pages pages) ≠ EmptyString →
         filter (λ d, source_of d = f) docs
         = [ {| page_content := concat_pages pages;
                metadata := {[ "source" := f ]} |} ])
    ∧ (∀ f,
         (∃ e, PyPDFLoader_load env (os_path_join (pdf_directory self) f)
               = Raise e)
         ∨ (∃ pages,
              PyPDFLoader_load env (os_path_join (pdf_directory self) f)
              = Ok pages
              ∧ Py.strip (concat_pages pages) = EmptyString) →
         filter (λ d, source_of d = f) docs = [])
    ∧ (∀ f, is_pdf f = false → filter (λ d, source_of d = f) docs = [])
    ∧ (∀ d, d ∈ docs →
         Py.strip (page_content d) ≠ EmptyString
         ∧ ∃ f, f ∈ names ∧ is_pdf f = true
                ∧ metadata d = {[ "source" := f ]}).
Proof.
  intros Hdir. exists (omap (unit_of env self) (elements names)).
  split; [by apply load_pdfs_eq|].
  pose proof (NoDup_elements names) as Hnd.
  split_and!.
  - intros f pages Hf Hpdf Hload Hpages Htext.
    rewrite (filter_source_omap _ _ _ _ Hnd).
    rewrite decide_True by by apply elem_of_elements.
    assert (unit_of env self f
            = Some {| page_content := concat_pages pages;
                      metadata := {[ "source" := f ]} |}) as ->; [|done].
    apply unit_of_Some. split; [done|]. by exists pages.
  - intros f Hfail. rewrite (filter_source_omap _ _ _ _ Hnd).
    destruct (unit_of env self f) as [d|] eqn:Hu; [|by case_decide].
    apply unit_of_Some in Hu as (_ & pages & Hload & _ & Htext & _).
    destruct Hfail as [[e He]|(pages' & Hload' & Htext')]; congruence.
  - intros f Hpdf. rewrite (filter_source_omap _ _ _ _ Hnd).
    destruct (unit_of env self f) as [d|] eqn:Hu; [|by case_decide].
    apply unit_of_Some in Hu as (Hpdf' & _). congruence.
  - intros d (f & Hf & Hu)%list_elem_of_omap.
    apply unit_of_Some in Hu as (Hpdf & pages & _ & _ & Htext & ->).
    split; [done|]. exists f. by rewrite <- elem_of_elements.
Qed.

Lemma load_pdfs_one_unit_per_file_witness :
  ∃ docs : list Document,
    load_pdfs Demo.env0 Demo.loader0 Demo.w_fresh = (Ok docs, Demo.w_fresh)
    ∧ filter (λ d, source_of d = "a.pdf") docs = [ Demo.doc_a ]
    ∧ filter (λ d, source_of d = "broken.pdf") docs = []
    ∧ filter (λ d, source_of d = "blank.pdf") docs = []
    ∧ filter (λ d, source_of d = "notes.txt") docs = []
    ∧ Demo.pdf_pages ("pdfs", "blank.pdf")
      = Ok [Demo.page "  "; Demo.page Demo.nbsp; Demo.page ""]
    ∧ Demo.pdf_pages ("pdfs", "notes.txt") = Ok [Demo.page "shopping list"].
Proof.
  destruct (load_pdfs_one_unit_per_file Demo.env0 Demo.loader0 Demo.w_fresh
              {[ "a.pdf"; "B.PDF"; "blank.pdf"; "broken.pdf"; "notes.txt" ]})
    as (docs & Hload & Hone & Hnone & Hother & _).
  { vm_compute. reflexivity. }
  exists docs. split; [exact Hload|].
  split_and!; [| | |by apply Hother|reflexivity|reflexivity].
  - apply (Hone "a.pdf"
             [Demo.page "The quick brown fox jumps over cats"; Demo.page ""]).
    + vm_compute. reflexivity.
    + reflexivity.
    + reflexivity.
    + discriminate.
    + discriminate.
  - apply Hnone. left. eexists. reflexivity.
  - apply Hnone. right. eexists. split; reflexivity.
Defined.

(** ** Building and persisting *)

Lemma try_except_raise {A} (m : M A) (w : World) :
  try_except m raise w = m w.
Proof. unfold try_except, raise. by destruct (m w) as [[a|e] w']. Qed.

(** [save_local] once the folder is there. *)
Lemma save_local_eq (vs : VectorStore) (d n : string) (w : World) :
  save_local vs d n w =
    match path_mkdir d w with
    | (Raise e, w1) => (Raise e, w1)
    | (Ok _, w1) =>
        let F := add_suffix (os_path_join d n) ".faiss" in
        let P := add_suffix (os_path_join d n) ".pkl" in
        match entries (fs w1) d with
        | None => (Raise (FileNotFoundError "No such file or directory"), w1)
        | Some _ =>
            if bool_decide (F ∈ protected (fs w)) then
              (Raise (Exception "could not open file for writing"), w1)
            else
              match failing (fs w) !! F with
              | Some e => (Raise e, with_fs w1 (touch (fs w1) F))
              | None =>
                  if bool_decide (P ∈ protected (fs w)) then
                    (Raise (OSError "Permission denied"),
                     with_fs w1 (touch (fs w1) F))
                  else
                    match failing (fs w) !! P with
                    | Some e =>
                        (Raise e, with_fs w1 (touch (touch (fs w1) F) P))
                    | None =>
                        (Ok tt, with_fs w1 (touch (touch (fs w1) F) P))
                    end
              end
        end
    end.
Proof.
  unfold save_local. unfold bind at 1.
  assert (protected (fs (path_mkdir d w).2) = protected (fs w)
          ∧ failing (fs (path_mkdir d w).2) = failing (fs w)) as [Hp Hf].
  { rewrite path_mkdir_eq. destruct (is_empty d); [done|].
    destruct (dirs (fs w) !! d) as [[names|]|]; try done.
    by destruct (bool_decide (d ∈ denied (fs w))). }
  destruct (path_mkdir d w) as [[[]|e] w1]; [|done]. simpl in Hp, Hf.
  cbv zeta. unfold bind. rewrite write_file_eq. simpl. rewrite Hp, Hf.
  destruct (entries (fs w1) d) as [names|] eqn:Hd; [|done].
  destruct (bool_decide (_ ∈ protected (fs w))); [done|].
  destruct (failing (fs w) !! _); [done|].
  rewrite write_file_eq. simpl. rewrite entries_touch. simpl.
  rewrite decide_True by done. rewrite Hd. simpl. rewrite Hp, Hf.
  destruct (bool_decide (_ ∈ protected (fs w))); [done|].
  by destruct (failing (fs w) !! _).
Qed.

Lemma path_mkdir_ok (d : string) (w w1 : World) :
  path_mkdir d w = (Ok tt, w1) →
  w1 = (if is_empty d || exists_dir (fs w) d then w
        else with_fs w (mkdir (fs w) d))
  ∧ (is_empty d = false → isdir (fs w1) d = true).
Proof.
  rewrite path_mkdir_eq. unfold exists_dir, isdir, entries.
  destruct (is_empty d) eqn:He; simpl;
    [intros [= <-]; split; [done|intros Hf; discriminate Hf]|].
  destruct (dirs (fs w) !! d) as [[names|]|] eqn:Hd; simpl.
  - intros [= <-]. rewrite Hd. split; [done|].
    intros _. apply bool_decide_eq_true. by eexists.
  - done.
  - destruct (bool_decide (d ∈ denied (fs w))); [done|]. intros [= <-].
    split; [done|]. intros _. simpl. rewrite lookup_insert_eq.
    apply bool_decide_eq_true. by eexists.
Qed.

Lemma save_local_ok (vs : VectorStore) (d n : string) (w w' : World) :
  save_local vs d n w = (Ok tt, w') →
  is_Some (entries (fs w') d)
  ∧ exists_ (fs w') (add_suffix (os_path_join d n) ".faiss") = true
  ∧ exists_ (fs w') (add_suffix (os_path_join d n) ".pkl") = true
  ∧ indexer w' = indexer w
  ∧ prompts w' = prompts w.
Proof.
  rewrite save_local_eq.
  destruct (path_mkdir d w) as [[[]|e] w1] eqn:Hmk; [|done].
  apply path_mkdir_ok in Hmk as [Hw1 _]. cbv zeta.
  destruct (entries (fs w1) d) as [names|] eqn:Hd; [|done].
  destruct (bool_decide (_ ∈ protected (fs w))); [done|].
  destruct (failing (fs w) !! _); [done|].
  destruct (bool_decide (_ ∈ protected (fs w))); [done|].
  destruct (failing (fs w) !! _); [done|].
  intros [= <-]. simpl.
  assert (is_Some (entries (touch (fs w1)
                              (add_suffix (os_path_join d n) ".faiss")) d))
    as Hd1.
  { rewrite entries_touch. simpl. rewrite decide_True by done.
    rewrite Hd. by eexists. }
  split_and!.
  - rewrite entries_touch. simpl. rewrite decide_True by done.
    by apply fmap_is_Some.
  - rewrite exists_touch by done.
    rewrite exists_touch by (simpl; rewrite Hd; by eexists).
    destruct (decide (_ = _)); [done|]. by rewrite decide_True.
  - rewrite exists_touch by done. by rewrite decide_True.
  - rewrite Hw1. by destruct (is_empty d || exists_dir (fs w) d).
  - rewrite Hw1. by destruct (is_empty d || exists_dir (fs w) d).
Qed.

(** [save_index] is [save_local] at the engine's location, except that
    the empty path stops it at [os.makedirs]. *)
Lemma save_index_eq (w : World) (vs : VectorStore) :
  vectorstore (indexer w) = Some vs →
  save_index w
  = if is_empty (index_directory (indexer w)) then
      (Raise (FileNotFoundError "No such file or directory"), w)
    else
      save_local vs (index_directory (indexer w)) (index_name (indexer w)) w.
Proof.
  intros Hvs. unfold save_index. unfold bind at 1, get_self at 1.
  rewrite Hvs, try_except_raise.
  change (bind (ensure_directory (index_directory (indexer w)))
            (λ _, save_local vs (index_directory (indexer w))
                    (index_name (indexer w))) w
          = if is_empty (index_directory (indexer w)) then
              (Raise (FileNotFoundError "No such file or directory"), w)
            else
              save_local vs (index_directory (indexer w))
                (index_name (indexer w)) w).
  unfold bind at 1. rewrite ensure_directory_eq.
  destruct (exists_dir (fs w) (index_directory (indexer w))) eqn:Hex.
  - apply exists_dir_lookup in Hex as [-> _]. done.
  - destruct (is_empty (index_directory (indexer w))) eqn:He; [done|].
    assert (dirs (fs w) !! index_directory (indexer w) = None) as Hnone.
    { unfold exists_dir in Hex. rewrite He in Hex. simpl in Hex.
      apply bool_decide_eq_false in Hex.
      destruct (dirs (fs w) !! _); [|done]. exfalso. apply Hex. by eexists. }
    rewrite (save_local_eq _ _ _ w), (path_mkdir_eq _ w), He, Hnone.
    destruct (bool_decide (_ ∈ denied (fs w))); [done|].
    rewrite save_local_eq, path_mkdir_eq, He.
    simpl. by rewrite lookup_insert_eq.
Qed.

Lemma save_index_ok (w w' : World) :
  save_index w = (Ok tt, w') →
  index_exists w' = (Ok true, w') ∧ indexer w' = indexer w.
Proof.
  destruct (vectorstore (indexer w)) as [vs|] eqn:Hvs.
  - rewrite (save_index_eq _ _ Hvs).
    destruct (is_empty (index_directory (indexer w))) eqn:He; [done|].
    intros (Hd & HF & HP & Hi & _)%save_local_ok.
    split; [|done]. rewrite index_exists_eq, Hi.
    unfold faiss_file, pkl_file, _get_index_path, isdir.
    rewrite HF, HP, He. simpl. by rewrite bool_decide_eq_true_2.
  - unfold save_index. unfold bind at 1, get_self at 1. by rewrite Hvs.
Qed.

Lemma create_n_save_index_ok (env : Env) (documents : list Document)
    (w w' : World) :
  create_n_save_index env documents w = (Ok tt, w') →
  index_exists w' = (Ok true, w')
  ∧ is_Some (vectorstore (indexer w'))
  ∧ documents ≠ [].
Proof.
  unfold create_n_save_index. unfold bind at 1, get_self at 1.
  destruct documents as [|doc documents]; [done|].
  change (negb (Py.truthy_list (doc :: documents))) with false. cbv iota.
  destruct (embedder_model (indexer w)) as [embedding|]; [|done].
  unfold try_except, bind at 1.
  unfold os_path_exists_dir, bind at 1, get_fs at 1, ret at 1.
  unfold bind at 1. cbv beta.
  destruct ((if negb (exists_dir (fs w) (index_directory (indexer w)))
             then os_makedirs (index_directory (indexer w))
             else ret tt) w) as [[[]|e] w1]; [|done].
  unfold bind at 1, lift.
  destruct (FAISS_from_documents env _ embedding) as [vs|e]; [|done].
  unfold bind at 1, set_vectorstore at 1.
  match goal with |- context [save_index ?w2] =>
    destruct (save_index w2) as [[[]|e] w3] eqn:E3; [|done] end.
  intros [= <-]. apply save_index_ok in E3 as [Hex Hi].
  split_and!; [done| |done]. rewrite Hi. simpl. by eexists.
Qed.

(** C2. At a location where neither artifact has been written,
    [index_exists] is false; in the state left by a [create_n_save_index]
    that returned (the index was built and saved) it is true; and in the
    state left by a [_remove_existing_index] that returned it is false. *)
Theorem index_exists_lifecycle (env : Env) (documents : list Document)
    (w0 w1 w1' w2 w2' : World) :
  exists_ (fs w0) (faiss_file (indexer w0)) = false →
  exists_ (fs w0) (pkl_file (indexer w0)) = false →
  create_n_save_index env documents w1 = (Ok tt, w1') →
  _remove_existing_index w2 = (Ok tt, w2') →
  index_exists w0 = (Ok false, w0)
  ∧ index_exists w1' = (Ok true, w1')
  ∧ index_exists w2' = (Ok false, w2').
Proof.
  intros HF0 HP0 Hbuild Hremove. split_and!.
  - rewrite index_exists_eq, HF0. by rewrite andb_false_r.
  - by apply create_n_save_index_ok in Hbuild as (? & _).
  - apply _remove_existing_index_ok in Hremove as (HF & HP & Hi & _).
    rewrite index_exists_eq, Hi, HF. by rewrite andb_false_r.
Qed.

Lemma index_exists_lifecycle_witness :
  index_exists Demo.w_fresh = (Ok false, Demo.w_fresh)
  ∧ index_exists Demo.w_built = (Ok true, Demo.w_built)
  ∧ index_exists Demo.w_removed = (Ok false, Demo.w_removed).
Proof.
  apply (index_exists_lifecycle Demo.env0 [Demo.doc_a; Demo.doc_b]
           Demo.w_fresh Demo.w_fresh Demo.w_built Demo.w_built
           Demo.w_removed).
  - reflexivity.
  - reflexivity.
  - vm_compute. reflexivity.
  - vm_compute. reflexivity.
Defined.

(** ** Rebuilding *)

Lemma filter_is_pdf_nil (l : list string) :
  List.filter is_pdf l = [] ↔ ∀ n, n ∈ l → is_pdf n = false.
Proof.
  induction l as [|x l IH]; simpl.
  - split; [|done]. intros _ n Hn. by apply not_elem_of_nil in Hn.
  - destruct (is_pdf x) eqn:Hx.
    + split; [done|]. intros H. specialize (H x (list_elem_of_here _ _)).
      congruence.
    + rewrite IH. split.
      * intros H n [->|Hn]%elem_of_cons; auto.
      * intros H n Hn. apply H. by apply list_elem_of_further.
Qed.

Lemma existsb_is_pdf_false (l : list string) :
  List.filter is_pdf l = [] → existsb is_pdf l = false.
Proof.
  induction l as [|x l IH]; simpl; [done|].
  destruct (is_pdf x); [done|]. exact IH.
Qed.

Lemma isdir_listing (f : FS) (d : string) :
  isdir f d = match listing f d with Some _ => true | None => false end.
Proof.
  unfold isdir, listing. destruct (is_empty d); [done|]. simpl.
  destruct (entries f d).
  - apply bool_decide_eq_true. by eexists.
  - apply bool_decide_eq_false. by intros [? ?].
Qed.

Lemma eligible_files_unlink (f : FS) (p : path) (d : string) :
  eligible_files f d = [] → eligible_files (unlink f p) d = [].
Proof.
  unfold eligible_files, listing. rewrite entries_unlink.
  destruct (is_empty d); [done|].
  case_decide as Hd; [|done]. subst d.
  destruct (entries f p.1) as [names|]; simpl; [|done].
  rewrite !filter_is_pdf_nil. intros H n Hn. apply H.
  apply elem_of_elements in Hn. apply elem_of_elements.
  apply elem_of_difference in Hn. tauto.
Qed.

(** Whether it completes or not, the removal creates nothing and leaves
    the [Indexer] object alone. *)
Lemma _remove_existing_index_frame (w : World) :
  let w' := (_remove_existing_index w).2 in
  indexer w' = indexer w
  ∧ prompts w' = prompts w
  ∧ (∀ q, exists_ (fs w') q = true → exists_ (fs w) q = true)
  ∧ (eligible_files (fs w) config.PDF_DIRECTORY = [] →
     eligible_files (fs w') config.PDF_DIRECTORY = []).
Proof.
  rewrite _remove_existing_index_eq. cbv zeta.
  assert (∀ f p q, exists_ (unlink f p) q = true → exists_ f q = true) as Hu.
  { intros f p q. rewrite exists_unlink. by case_decide. }
  destruct (removal_blocked (fs w) (faiss_file (indexer w))); [done|].
  destruct (exists_ (fs w) (faiss_file (indexer w)));
    destruct (removal_blocked _ (pkl_file (indexer w)));
    try destruct (exists_ _ (pkl_file (indexer w)));
    simpl; split_and!; try done;
    eauto using eligible_files_unlink.
Qed.

Lemma rebuild_index_no_eligible (env : Env) (data_loader : DataLoader)
    (w : World) :
  eligible_files (fs w) config.PDF_DIRECTORY = [] →
  rebuild_index env data_loader w = (Ok false, (_remove_existing_index w).2).
Proof.
  intros Hnone.
  destruct (_remove_existing_index_frame w) as (_ & _ & _ & Hnone').
  specialize (Hnone' Hnone).
  unfold rebuild_index, try_except. unfold bind at 1.
  destruct (_remove_existing_index w) as [[[]|e] w1]; simpl in *.
  - unfold os_path_isdir. py_unfold. rewrite isdir_listing.
    unfold eligible_files in Hnone'.
    destruct (listing (fs w1) config.PDF_DIRECTORY) as [names|] eqn:Hd;
      [|done].
    rewrite os_listdir_eq, Hd. by rewrite (existsb_is_pdf_false _ Hnone').
  - unfold ret. by destruct e.
Qed.

Lemma rebuild_index_total (env : Env) (data_loader : DataLoader) (w : World) :
  ∃ (b : bool) (w' : World), rebuild_index env data_loader w = (Ok b, w').
Proof.
  unfold rebuild_index, try_except.
  match goal with |- context [match ?body w with _ => _ end] =>
    destruct (body w) as [[b|e] w1] end.
  - by exists b, w1.
  - exists false, w1. unfold ret. by destruct e.
Qed.

(** C5.  [rebuild_index] returns a boolean on every input: no exception
    leaves it.  When the PDF directory holds no eligible file (or is
    missing), the result is [False], the [Indexer] object is untouched and
    nothing is written: the file system is what the removal of the old
    artifacts left.  If no artifact that is present refuses to be deleted,
    the location then holds neither artifact and [index_exists] is
    false. *)
Theorem rebuild_index_empty_source (env : Env) (data_loader : DataLoader)
    (w : World) :
  let F := faiss_file (indexer w) in
  let P := pkl_file (indexer w) in
  (∃ (b : bool) (w' : World), rebuild_index env data_loader w = (Ok b, w'))
  ∧ (eligible_files (fs w) config.PDF_DIRECTORY = [] →
     ∃ w' : World,
       rebuild_index env data_loader w = (Ok false, w')
       ∧ indexer w' = indexer w
       ∧ (∀ q, exists_ (fs w') q = true → exists_ (fs w) q = true)
       ∧ (removal_blocked (fs w) F = false →
          removal_blocked (fs w) P = false →
          exists_ (fs w') F = false
          ∧ exists_ (fs w') P = false
          ∧ index_exists w' = (Ok false, w'))).
Proof.
  intros F P. split; [apply rebuild_index_total|].
  intros Hnone. exists (_remove_existing_index w).2.
  destruct (_remove_existing_index_frame w) as (Hi & _ & Hsub & _).
  split_and!; [by apply rebuild_index_no_eligible|done|done|].
  intros HbF HbP.
  assert (∃ w', _remove_existing_index w = (Ok tt, w')) as [w' Hrm].
  { rewrite _remove_existing_index_eq. cbv zeta. fold F P. rewrite HbF.
    assert (removal_blocked
              (fs (if exists_ (fs w) F
                   then with_fs w (unlink (fs w) F) else w)) P = false)
      as ->; [|by eexists].
    destruct (exists_ (fs w) F); [|done].
    unfold removal_blocked in *. simpl. rewrite exists_unlink.
    destruct (decide (P = F)); [reflexivity | exact HbP]. }
  rewrite Hrm. simpl.
  apply _remove_existing_index_ok in Hrm as (HF & HP & Hi' & _).
  fold F P in HF, HP. split_and!; [done|done|].
  rewrite index_exists_eq, Hi'. fold F. rewrite HF. by rewrite andb_false_r.
Qed.

Lemma rebuild_index_empty_source_witness :
  eligible_files (fs Demo.w_indexed) config.PDF_DIRECTORY = []
  ∧ ∃ w' : World,
      rebuild_index Demo.env0 Demo.loader0 Demo.w_indexed = (Ok false, w')
      ∧ index_exists w' = (Ok false, w').
Proof.
  split; [reflexivity|].
  destruct (rebuild_index_empty_source Demo.env0 Demo.loader0 Demo.w_indexed)
    as [_ Hempty].
  destruct (Hempty eq_refl) as (w' & Hr & _ & _ & Hgone).
  exists w'. split; [exact Hr|].
  destruct (Hgone eq_refl eq_refl) as (_ & _ & Hex). exact Hex.
Defined.

(** At the locked installation the PDF directory holds no PDF, the rebuild
    fails, and the index it could not delete is still reported to exist. *)
Lemma rebuild_index_keeps_locked_index :
  eligible_files (fs Demo.w_locked) config.PDF_DIRECTORY = []
  ∧ rebuild_index Demo.env0 Demo.loader0 Demo.w_locked
    = (Ok false, Demo.w_locked)
  ∧ index_exists Demo.w_locked = (Ok true, Demo.w_locked).
Proof. split_and!; vm_compute; reflexivity. Qed.

(** * Further properties *)

(** ** Saving and loading *)

(** Where the index can be held, the folder is there after [mkdir], and
    making it hides no entry. *)
Lemma can_hold_index_spec (w : World) (d : string) :
  can_hold_index (fs w) d = true →
  is_empty d = false
  ∧ path_mkdir d w = (Ok tt, with_directory w d)
  ∧ ensure_directory d w = (Ok tt, with_directory w d)
  ∧ isdir (fs (with_directory w d)) d = true
  ∧ (∀ q, exists_ (fs (with_directory w d)) q = exists_ (fs w) q).
Proof.
  unfold can_hold_index, with_directory.
  rewrite path_mkdir_eq, ensure_directory_eq.
  intros [Hd|Hd]%orb_prop.
  - pose proof Hd as [He [names Hn]]%isdir_entries.
    rewrite (isdir_exists_dir _ _ Hd), He.
    unfold entries in Hn. by destruct (dirs (fs w) !! d) as [[?|]|].
  - apply andb_prop in Hd as [[He Hex]%andb_prop Hden].
    apply negb_true_iff in He, Hex, Hden. rewrite He, Hex, Hden.
    assert (dirs (fs w) !! d = None) as Hnone.
    { unfold exists_dir in Hex. rewrite He in Hex.
      apply bool_decide_eq_false in Hex.
      destruct (dirs (fs w) !! d); [|done]. exfalso. apply Hex. by eexists. }
    rewrite Hnone. split_and!; try done.
    + simpl. rewrite isdir_mkdir, decide_True by done. by rewrite He.
    + intros q. simpl. apply exists_mkdir. by apply entries_None.
Qed.

Lemma writable_spec (f : FS) (p : path) :
  writable f p = true ↔ (p ∉ protected f) ∧ (failing f !! p = None).
Proof.
  unfold writable.
  rewrite andb_true_iff, negb_true_iff, bool_decide_eq_false,
    bool_decide_eq_true. done.
Qed.

Lemma with_directory_frame (w : World) (d : string) :
  indexer (with_directory w d) = indexer w
  ∧ prompts (with_directory w d) = prompts w
  ∧ protected (fs (with_directory w d)) = protected (fs w)
  ∧ denied (fs (with_directory w d)) = denied (fs w)
  ∧ failing (fs (with_directory w d)) = failing (fs w).
Proof. unfold with_directory. by destruct (exists_dir (fs w) d). Qed.

Lemma save_local_succeeds (vs : VectorStore) (d n : string) (w : World) :
  let F := add_suffix (os_path_join d n) ".faiss" in
  let P := add_suffix (os_path_join d n) ".pkl" in
  can_hold_index (fs w) d = true →
  writable (fs w) F = true →
  writable (fs w) P = true →
  save_local vs d n w
  = (Ok tt, with_fs (with_directory w d)
              (touch (touch (fs (with_directory w d)) F) P)).
Proof.
  intros F P (He & Hmk & _ & Hd & _)%can_hold_index_spec
    [HF HfF]%writable_spec [HP HfP]%writable_spec.
  rewrite save_local_eq, Hmk. cbv zeta. fold F P.
  apply isdir_entries in Hd as [_ [names ->]].
  rewrite !bool_decide_eq_false_2 by done. by rewrite HfF, HfP.
Qed.

(** X1. [create_n_save_index] checks its input before it does anything:
    with an empty list of documents, or with an embedder that is missing or
    has no model, it raises a [ValueError] and the state is untouched (no
    directory is made, the handle is kept). *)
Theorem create_n_save_index_rejects (env : Env) (documents : list Document)
    (w : World) :
  documents = [] ∨ embedder_model (indexer w) = None →
  ∃ msg : string,
    create_n_save_index env documents w = (Raise (ValueError msg), w).
Proof.
  intros Hbad. unfold create_n_save_index. unfold bind at 1, get_self at 1.
  destruct documents as [|doc documents].
  - eexists. reflexivity.
  - destruct Hbad as [Hbad|Hbad]; [done|].
    change (negb (Py.truthy_list (doc :: documents))) with false. cbv iota.
    rewrite Hbad. eexists. reflexivity.
Qed.

Lemma create_n_save_index_rejects_witness :
  ∃ msg : string,
    create_n_save_index Demo.env0 [] Demo.w_fresh
    = (Raise (ValueError msg), Demo.w_fresh).
Proof.
  apply (create_n_save_index_rejects Demo.env0 [] Demo.w_fresh).
  left. reflexivity.
Defined.



Lemma load_index_eq (env : Env) (w : World) :
  load_index env w =
    if negb (isdir (fs w) (index_directory (indexer w))
             && exists_ (fs w) (faiss_file (indexer w))
             && exists_ (fs w) (pkl_file (indexer w))) then
      (Raise (FileNotFoundError
                ("FAISS index not found at " +:+ index_directory (indexer w)
                   +:+ "/" +:+ index_name (indexer w))), w)
    else
      match embedder_model (indexer w) with
      | None =>
          (Raise (ValueError
                    "Embedder not properly initialized for loading FAISS index."),
           w)
      | Some embedding =>
          match FAISS_load_local env (index_directory (indexer w)) embedding
                  (index_name (indexer w)) with
          | Ok vs => (Ok tt, with_vectorstore w (Some vs))
          | Raise e => (Raise e, w)
          end
      end.
Proof.
  unfold load_index. unfold bind at 1, get_self at 1.
  unfold bind at 1. rewrite index_exists_eq.
  destruct (isdir _ _ && _ && _); simpl; [|done].
  destruct (embedder_model (indexer w)) as [embedding|]; [|done].
  rewrite try_except_raise. unfold bind, lift, set_vectorstore.
  by destruct (FAISS_load_local env _ embedding _).
Qed.

Lemma load_index_frame (env : Env) (w : World) :
  fs (load_index env w).2 = fs w.
Proof.
  rewrite load_index_eq. destruct (negb _); [done|].
  destruct (embedder_model (indexer w)) as [embedding|]; [|done].
  by destruct (FAISS_load_local env _ embedding _).
Qed.

Lemma load_index_ok_inv (env : Env) (w w' : World) :
  load_index env w = (Ok tt, w') →
  ∃ vs, w' = with_vectorstore w (Some vs).
Proof.
  rewrite load_index_eq. destruct (negb _); [done|].
  destruct (embedder_model (indexer w)) as [embedding|]; [|done].
  destruct (FAISS_load_local env _ embedding _) as [vs|e]; [|done].
  intros [= <-]. by exists vs.
Qed.

(** X3. [load_index] reads and never writes: whatever its outcome, the
    file system is the one it found.  With one of the two artifact files
    missing it raises [FileNotFoundError]; whenever it raises, the handle
    the engine had is kept; and when it returns, both files were there and
    the handle is the store the library deserialised. *)
Theorem load_index_outcomes (env : Env) (w : World) :
  fs (load_index env w).2 = fs w
  ∧ (exists_ (fs w) (faiss_file (indexer w)) = false
     ∨ exists_ (fs w) (pkl_file (indexer w)) = false →
     ∃ msg, load_index env w = (Raise (FileNotFoundError msg), w))
  ∧ (∀ e w', load_index env w = (Raise e, w') → w' = w)
  ∧ (∀ w', load_index env w = (Ok tt, w') →
       index_exists w = (Ok true, w)
       ∧ ∃ embedding vs,
           embedder_model (indexer w) = Some embedding
           ∧ FAISS_load_local env (index_directory (indexer w)) embedding
               (index_name (indexer w)) = Ok vs
           ∧ w' = with_vectorstore w (Some vs)).
Proof.
  rewrite load_index_eq, index_exists_eq.
  destruct (isdir _ _ && exists_ (fs w) (faiss_file (indexer w))
            && exists_ (fs w) (pkl_file (indexer w))) eqn:Hex; simpl.
  - apply andb_prop in Hex as [[_ HF]%andb_prop HP].
    destruct (embedder_model (indexer w)) as [embedding|].
    + destruct (FAISS_load_local env _ embedding _) as [vs|e] eqn:Hload.
      * split_and!; [done| |done|].
        -- intros [?|?]; congruence.
        -- intros w' [= <-]. split; [done|]. by exists embedding, vs.
      * split_and!; [done| |congruence|done]. intros [?|?]; congruence.
    + split_and!; [done| |congruence|done]. intros [?|?]; congruence.
  - split_and!; [done| |congruence|done]. intros _. by eexists.
Qed.

Lemma load_index_outcomes_witness :
  ∃ msg, load_index Demo.env0 Demo.w_half
         = (Raise (FileNotFoundError msg), Demo.w_half).
Proof.
  destruct (load_index_outcomes Demo.env0 Demo.w_half) as (_ & Hmissing & _).
  apply Hmissing. left. reflexivity.
Defined.

Lemma ensure_directory_ok (d : string) (w w1 : World) :
  ensure_directory d w = (Ok tt, w1) →
  is_empty d = false ∧ w1 = with_directory w d.
Proof.
  rewrite ensure_directory_eq. unfold with_directory.
  destruct (exists_dir (fs w) d) eqn:Hex.
  - apply exists_dir_lookup in Hex as [He _]. by intros [= <-].
  - destruct (is_empty d); [done|].
    destruct (bool_decide (d ∈ denied (fs w))); [done|]. by intros [= <-].
Qed.

Lemma ensure_directory_raise (d : string) (w w1 : World) (e : exn) :
  ensure_directory d w = (Raise e, w1) → w1 = w.
Proof.
  rewrite ensure_directory_eq.
  destruct (exists_dir (fs w) d); [done|].
  destruct (is_empty d); [by intros [= _ <-]|].
  destruct (bool_decide (d ∈ denied (fs w))); [by intros [= _ <-]|done].
Qed.

(** Whatever its outcome, [save_local] leaves the [Indexer] object and
    the prompts alone, and removes no entry. *)
Lemma save_local_frame (vs : VectorStore) (d n : string) (w : World) :
  let w' := (save_local vs d n w).2 in
  indexer w' = indexer w ∧ prompts w' = prompts w.
Proof.
  rewrite save_local_eq, path_mkdir_eq. cbv zeta.
  assert (∀ w1 : World,
            indexer w1 = indexer w → prompts w1 = prompts w →
            let r :=
              match entries (fs w1) d with
              | None =>
                  (Raise (FileNotFoundError "No such file or directory"), w1)
              | Some _ =>
                  if bool_decide (add_suffix (os_path_join d n) ".faiss"
                                  ∈ protected (fs w)) then
                    (Raise (Exception "could not open file for writing"), w1)
                  else
                    match failing (fs w)
                          !! add_suffix (os_path_join d n) ".faiss" with
                    | Some e =>
                        (Raise e,
                         with_fs w1
                           (touch (fs w1)
                              (add_suffix (os_path_join d n) ".faiss")))
                    | None =>
                        if bool_decide (add_suffix (os_path_join d n) ".pkl"
                                        ∈ protected (fs w)) then
                          (Raise (OSError "Permission denied"),
                           with_fs w1
                             (touch (fs w1)
                                (add_suffix (os_path_join d n) ".faiss")))
                        else
                          match failing (fs w)
                                !! add_suffix (os_path_join d n) ".pkl" with
                          | Some e =>
                              (Raise e,
                               with_fs w1
                                 (touch
                                    (touch (fs w1)
                                       (add_suffix (os_path_join d n)
                                          ".faiss"))
                                    (add_suffix (os_path_join d n) ".pkl")))
                          | None =>
                              (Ok tt,
                               with_fs w1
                                 (touch
                                    (touch (fs w1)
                                       (add_suffix (os_path_join d n)
                                          ".faiss"))
                                    (add_suffix (os_path_join d n) ".pkl")))
                          end
                    end
              end in
            indexer r.2 = indexer w ∧ prompts r.2 = prompts w) as Hbody.
  { intros w1 Hi Hp. cbv zeta.
    destruct (entries (fs w1) d); [|done].
    destruct (bool_decide (_ ∈ protected (fs w))); [done|].
    destruct (failing (fs w) !! _); [done|].
    destruct (bool_decide (_ ∈ protected (fs w))); [done|].
    by destruct (failing (fs w) !! _). }
  destruct (is_empty d); [by apply Hbody|].
  destruct (dirs (fs w) !! d) as [[names|]|]; [by apply Hbody|done|].
  destruct (bool_decide (d ∈ denied (fs w))); [done|]. by apply Hbody.
Qed.

Lemma create_n_save_index_eq (env : Env) (documents : list Document)
    (w : World) (embedding : EmbeddingModel) :
  documents ≠ [] →
  embedder_model (indexer w) = Some embedding →
  create_n_save_index env documents w =
    let d := index_directory (indexer w) in
    match ensure_directory d w with
    | (Raise e, w1) => (Raise e, w1)
    | (Ok _, w1) =>
        match FAISS_from_documents env documents embedding with
        | Ok vs =>
            save_local vs d (index_name (indexer w))
              (with_vectorstore w1 (Some vs))
        | Raise e => (Raise e, w1)
        end
    end.
Proof.
  intros Hdocs Hemb. unfold create_n_save_index.
  unfold bind at 1, get_self at 1.
  destruct documents as [|doc documents]; [done|].
  change (negb (Py.truthy_list (doc :: documents))) with false. cbv iota.
  rewrite Hemb, try_except_raise.
  unfold bind at 1, os_path_exists_dir at 1, bind at 1, get_fs at 1, ret at 1.
  unfold bind at 1. cbv zeta.
  change ((if negb (exists_dir (fs w) (index_directory (indexer w)))
           then os_makedirs (index_directory (indexer w)) else ret tt) w)
    with (ensure_directory (index_directory (indexer w)) w).
  destruct (ensure_directory (index_directory (indexer w)) w)
    as [[[]|e] w1] eqn:Hens; [|done].
  apply ensure_directory_ok in Hens as [He ->].
  destruct (with_directory_frame w (index_directory (indexer w)))
    as (Hi & _).
  unfold bind at 1, lift.
  destruct (FAISS_from_documents env (doc :: documents) embedding) as [vs|e];
    [|done].
  unfold bind at 1, set_vectorstore at 1.
  match goal with |- save_index ?w2 = _ =>
    rewrite (save_index_eq w2 vs) by reflexivity end.
  simpl. rewrite Hi, He. unfold with_vectorstore. by rewrite Hi.
Qed.

(** Whatever its outcome, [create_n_save_index] keeps the embedder, the
    location and the prompts. *)
Lemma create_n_save_index_frame (env : Env) (documents : list Document)
    (w : World) :
  let w' := (create_n_save_index env documents w).2 in
  embedder (indexer w') = embedder (indexer w)
  ∧ index_directory (indexer w') = index_directory (indexer w)
  ∧ index_name (indexer w') = index_name (indexer w)
  ∧ prompts w' = prompts w.
Proof.
  cbv zeta. destruct documents as [|doc documents]; [done|].
  destruct (embedder_model (indexer w)) as [embedding|] eqn:Hemb.
  - rewrite (create_n_save_index_eq env (doc :: documents) w embedding);
      [|done|done].
    cbv zeta.
    destruct (ensure_directory (index_directory (indexer w)) w)
      as [[[]|e] w1] eqn:Hens.
    + apply ensure_directory_ok in Hens as [He ->].
      destruct (with_directory_frame w (index_directory (indexer w)))
        as (Hi & Hp & _).
      destruct (FAISS_from_documents env _ embedding) as [vs|e]; simpl.
      * match goal with |- context [save_local ?a ?b ?c ?w2] =>
          destruct (save_local_frame a b c w2) as [Hi' Hp'] end.
        rewrite Hi', Hp'. simpl. by rewrite Hi, Hp.
      * by rewrite Hi, Hp.
    + by apply ensure_directory_raise in Hens as ->.
  - assert (create_n_save_index env (doc :: documents) w
            = (Raise (ValueError "Embedder not properly initialized."), w))
      as ->; [|done].
    unfold create_n_save_index. unfold bind at 1, get_self at 1.
    change (negb (Py.truthy_list (doc :: documents))) with false. cbv iota.
    by rewrite Hemb.
Qed.

(** X4. Building and then loading.  In the state left by a
    [create_n_save_index] that returned, [load_index] finds the index and
    the embedder: it raises neither [FileNotFoundError] nor the embedder's
    [ValueError]; it returns exactly when the library's [load_local]
    does, and its handle is then the store the library read back. *)
Theorem load_index_after_create (env : Env) (documents : list Document)
    (w w' : World) :
  create_n_save_index env documents w = (Ok tt, w') →
  ∃ embedding,
    embedder_model (indexer w) = Some embedding
    ∧ load_index env w' =
        match FAISS_load_local env (index_directory (indexer w)) embedding
                (index_name (indexer w)) with
        | Ok vs => (Ok tt, with_vectorstore w' (Some vs))
        | Raise e => (Raise e, w')
        end.
Proof.
  intros Hc. pose proof Hc as (Hex & _ & Hdocs)%create_n_save_index_ok.
  destruct (create_n_save_index_frame env documents w)
    as (Hemb' & Hdir & Hname & _).
  rewrite Hc in Hemb', Hdir, Hname. simpl in Hemb', Hdir, Hname.
  destruct (embedder_model (indexer w)) as [embedding|] eqn:Hemb.
  - exists embedding. split; [done|].
    rewrite load_index_eq. rewrite index_exists_eq in Hex.
    injection Hex as ->. simpl negb. cbv iota.
    assert (embedder_model (indexer w') = Some embedding) as ->.
    { unfold embedder_model in *. by rewrite Hemb'. }
    by rewrite Hdir, Hname.
  - unfold create_n_save_index in Hc. unfold bind at 1, get_self at 1 in Hc.
    destruct documents as [|doc documents]; [done|].
    change (negb (Py.truthy_list (doc :: documents))) with false in Hc.
    cbv iota in Hc. by rewrite Hemb in Hc.
Qed.

Lemma load_index_after_create_witness :
  load_index Demo.env0 Demo.w_built
  = (Ok tt,
     with_vectorstore Demo.w_built
       (Some (Demo.store_of [Demo.doc_a; Demo.doc_b]))).
Proof.
  destruct (load_index_after_create Demo.env0 [Demo.doc_a; Demo.doc_b]
              Demo.w_fresh Demo.w_built) as (embedding & Hemb & Hload).
  - vm_compute. reflexivity.
  - injection Hemb as <-. exact Hload.
Defined.

(** ** Rebuilding and setting up *)

Lemma existsb_is_pdf_filter (l : list string) :
  existsb is_pdf l = Py.truthy_list (List.filter is_pdf l).
Proof.
  induction l as [|x l IH]; simpl; [done|]. by destruct (is_pdf x).
Qed.

Lemma load_pdfs_state (env : Env) (self : DataLoader) (w : World) :
  (load_pdfs env self w).2 = w.
Proof.
  destruct (listing (fs w) (pdf_directory self)) as [names|] eqn:Hd.
  - by rewrite (load_pdfs_eq _ _ _ _ Hd).
  - by destruct (load_pdfs_no_listing env _ _ Hd) as [e ->].
Qed.

Lemma rebuild_index_eq (env : Env) (data_loader : DataLoader) (w : World) :
  rebuild_index env data_loader w =
    match _remove_existing_index w with
    | (Raise e, w1) => (Ok false, w1)
    | (Ok _, w1) =>
        if Py.truthy_list (eligible_files (fs w1) config.PDF_DIRECTORY) then
          match (load_pdfs env data_loader w1).1 with
          | Raise e => (Ok false, w1)
          | Ok [] => (Ok false, w1)
          | Ok (doc :: docs) =>
              match create_n_save_index env (doc :: docs) w1 with
              | (Ok _, w2) => (Ok true, w2)
              | (Raise e, w2) => (Ok false, w2)
              end
          end
        else (Ok false, w1)
    end.
Proof.
  unfold rebuild_index, try_except. unfold bind at 1.
  destruct (_remove_existing_index w) as [[[]|e] w1];
    [|unfold ret; by destruct e].
  unfold bind at 1, os_path_isdir at 1, bind at 1, get_fs at 1, ret at 1.
  unfold bind at 1. unfold eligible_files. rewrite isdir_listing.
  destruct (listing (fs w1) config.PDF_DIRECTORY) as [names|] eqn:Hd.
  - unfold bind at 1. rewrite os_listdir_eq, Hd.
    unfold ret at 1. rewrite existsb_is_pdf_filter.
    destruct (Py.truthy_list (List.filter is_pdf (elements names)));
      simpl; [|done].
    unfold bind at 1.
    pose proof (load_pdfs_state env data_loader w1) as Hst.
    destruct (load_pdfs env data_loader w1) as [[docs|e] w2];
      simpl in Hst; subst w2; simpl.
    + destruct docs as [|doc docs]; [done|].
      change (Py.truthy_list (doc :: docs)) with true. cbv iota.
      unfold bind, ret.
      by destruct (create_n_save_index env (doc :: docs) w1)
        as [[[]|[]] w2].
    + unfold ret. by destruct e.
  - done.
Qed.

Lemma rebuild_index_true_inv (env : Env) (data_loader : DataLoader)
    (w w' : World) :
  rebuild_index env data_loader w = (Ok true, w') →
  ∃ w1 docs embedding vs,
    _remove_existing_index w = (Ok tt, w1)
    ∧ load_pdfs env data_loader w1 = (Ok docs, w1)
    ∧ docs ≠ []
    ∧ embedder_model (indexer w) = Some embedding
    ∧ FAISS_from_documents env docs embedding = Ok vs
    ∧ vectorstore (indexer w') = Some vs
    ∧ index_exists w' = (Ok true, w').
Proof.
  rewrite rebuild_index_eq.
  destruct (_remove_existing_index w) as [[[]|e] w1] eqn:Hrm; [|done].
  destruct (Py.truthy_list _); [|done].
  pose proof (load_pdfs_state env data_loader w1) as Hst.
  destruct (load_pdfs env data_loader w1) as [[docs|e] w2] eqn:Hload;
    simpl in *; [|done]. subst w2.
  destruct docs as [|doc docs]; [done|].
  destruct (create_n_save_index env (doc :: docs) w1) as [[[]|e] w2] eqn:Hc;
    [|done].
  intros [= <-].
  pose proof Hc as (Hex & _ & _)%create_n_save_index_ok.
  apply _remove_existing_index_ok in Hrm as (_ & _ & Hi & _).
  destruct (embedder_model (indexer w1)) as [embedding|] eqn:Hemb.
  - rewrite (create_n_save_index_eq _ _ _ embedding) in Hc by done.
    cbv zeta in Hc.
    destruct (ensure_directory (index_directory (indexer w1)) w1)
      as [[[]|e] w1'] eqn:Hens; [|done].
    destruct (FAISS_from_documents env (doc :: docs) embedding) as [vs|e]
      eqn:Hvs; [|done].
    apply save_local_ok in Hc as (_ & _ & _ & Hi2 & _).
    exists w1, (doc :: docs), embedding, vs.
    split_and!; try done.
    + by rewrite <- Hi.
    + by rewrite Hi2.
  - unfold create_n_save_index in Hc. unfold bind at 1, get_self at 1 in Hc.
    change (negb (Py.truthy_list (doc :: docs))) with false in Hc.
    cbv iota in Hc. by rewrite Hemb in Hc.
Qed.

(** X5. A rebuild that reports success did all its steps: the old
    artifacts were removed, the loader produced a non-empty list of
    documents, the library built a store from exactly that list, and
    afterwards this store is the engine's handle and the index exists on
    disk. *)
Theorem rebuild_index_true (env : Env) (data_loader : DataLoader)
    (w w' : World) :
  rebuild_index env data_loader w = (Ok true, w') →
  ∃ w1 docs embedding vs,
    _remove_existing_index w = (Ok tt, w1)
    ∧ load_pdfs env data_loader w1 = (Ok docs, w1)
    ∧ docs ≠ []
    ∧ embedder_model (indexer w) = Some embedding
    ∧ FAISS_from_documents env docs embedding = Ok vs
    ∧ vectorstore (indexer w') = Some vs
    ∧ index_exists w' = (Ok true, w').
Proof. apply rebuild_index_true_inv. Qed.

Lemma rebuild_index_true_witness :
  ∃ w1 docs embedding vs,
    _remove_existing_index Boot.w_one_pdf = (Ok tt, w1)
    ∧ load_pdfs Demo.env0 Demo.loader0 w1 = (Ok docs, w1)
    ∧ docs ≠ []
    ∧ embedder_model (indexer Boot.w_one_pdf) = Some embedding
    ∧ FAISS_from_documents Demo.env0 docs embedding = Ok vs
    ∧ vectorstore (indexer Boot.w_rebuilt) = Some vs
    ∧ index_exists Boot.w_rebuilt = (Ok true, Boot.w_rebuilt).
Proof.
  apply (rebuild_index_true Demo.env0 Demo.loader0 Boot.w_one_pdf
           Boot.w_rebuilt).
  vm_compute. reflexivity.
Defined.

Lemma _remove_existing_index_unblocked (w : World) :
  faiss_file (indexer w) ∉ protected (fs w) →
  pkl_file (indexer w) ∉ protected (fs w) →
  ∃ w1, _remove_existing_index w = (Ok tt, w1)
        ∧ indexer w1 = indexer w
        ∧ prompts w1 = prompts w
        ∧ protected (fs w1) = protected (fs w)
        ∧ denied (fs w1) = denied (fs w)
        ∧ failing (fs w1) = failing (fs w)
        ∧ (∀ d, isdir (fs w1) d = isdir (fs w) d)
        ∧ (∀ d, exists_dir (fs w1) d = exists_dir (fs w) d)
        ∧ (∀ d, d ≠ index_directory (indexer w) →
                listing (fs w1) d = listing (fs w) d).
Proof.
  intros HF HP. rewrite _remove_existing_index_eq. cbv zeta.
  unfold removal_blocked.
  rewrite (bool_decide_eq_false_2 _ HF), andb_false_r.
  destruct (exists_ (fs w) (faiss_file (indexer w))); simpl;
    rewrite (bool_decide_eq_false_2 _ HP), andb_false_r;
    destruct (exists_ _ (pkl_file (indexer w))); simpl;
    eexists; (split; [reflexivity|]); split_and!; try done;
    intros d; simpl;
    rewrite ?isdir_unlink, ?exists_dir_unlink; try done;
    intros Hd; by rewrite ?listing_unlink by done.
Qed.

Lemma can_hold_index_ext (f f' : FS) (d : string) :
  isdir f' d = isdir f d → exists_dir f' d = exists_dir f d →
  denied f' = denied f →
  can_hold_index f' d = can_hold_index f d.
Proof. unfold can_hold_index. by intros -> -> ->. Qed.

(** X6. When a rebuild succeeds.  Let the loader read the configured PDF
    directory, the index live in another directory, which is there or can
    be made, the embedder have a model, and the two artifact files be
    deletable and writable.  If the loader makes at least one document of
    the directory and the library builds a store from these documents,
    [rebuild_index] returns [True], the store is the engine's handle and
    the index exists on disk. *)
Theorem rebuild_index_succeeds (env : Env) (data_loader : DataLoader)
    (w : World) (names : gset string) (embedding : EmbeddingModel)
    (vs : VectorStore) :
  pdf_directory data_loader = config.PDF_DIRECTORY →
  index_directory (indexer w) ≠ config.PDF_DIRECTORY →
  listing (fs w) config.PDF_DIRECTORY = Some names →
  omap (unit_of env data_loader) (elements names) ≠ [] →
  embedder_model (indexer w) = Some embedding →
  FAISS_from_documents env (omap (unit_of env data_loader) (elements names))
    embedding = Ok vs →
  can_hold_index (fs w) (index_directory (indexer w)) = true →
  writable (fs w) (faiss_file (indexer w)) = true →
  writable (fs w) (pkl_file (indexer w)) = true →
  ∃ w', rebuild_index env data_loader w = (Ok true, w')
        ∧ vectorstore (indexer w') = Some vs
        ∧ index_exists w' = (Ok true, w').
Proof.
  intros Hdl Hne Hnames Hdocs Hemb Hvs Hcan HwF HwP.
  pose proof HwF as [HF _]%writable_spec.
  pose proof HwP as [HP _]%writable_spec.
  destruct (_remove_existing_index_unblocked w HF HP)
    as (w1 & Hrm & Hi & _ & Hprot & Hden & Hfail & Hisdir & Hexd & Hdirs).
  assert (listing (fs w1) config.PDF_DIRECTORY = Some names) as Hnames1.
  { rewrite Hdirs; [done|]. congruence. }
  rewrite rebuild_index_eq, Hrm. unfold eligible_files. rewrite Hnames1.
  assert (Py.truthy_list (List.filter is_pdf (elements names)) = true) as ->.
  { destruct (omap (unit_of env data_loader) (elements names))
      as [|doc docs] eqn:Ho; [done|].
    assert (doc ∈ omap (unit_of env data_loader) (elements names)) as Hin.
    { rewrite Ho. apply list_elem_of_here. }
    apply list_elem_of_omap in Hin as (f & Hf & Hu).
    apply unit_of_Some in Hu as (Hpdf & _).
    destruct (List.filter is_pdf (elements names)) eqn:Hfil; [|done].
    pose proof (proj1 (filter_is_pdf_nil _) Hfil f Hf). congruence. }
  rewrite (load_pdfs_eq env data_loader w1 names) by (by rewrite Hdl).
  simpl.
  destruct (omap (unit_of env data_loader) (elements names))
    as [|doc docs] eqn:Ho; [done|].
  assert (can_hold_index (fs w1) (index_directory (indexer w1)) = true)
    as Hcan1.
  { rewrite Hi. by rewrite (can_hold_index_ext (fs w)). }
  assert (∃ w', create_n_save_index env (doc :: docs) w1 = (Ok tt, w')
                ∧ vectorstore (indexer w') = Some vs) as (w' & Hc & Hh).
  { rewrite (create_n_save_index_eq env _ w1 embedding) by (by rewrite ?Hi).
    cbv zeta.
    pose proof Hcan1 as (_ & _ & -> & Hd1 & _)%can_hold_index_spec.
    rewrite Hvs.
    destruct (with_directory_frame w1 (index_directory (indexer w1)))
      as (Hi1 & _ & Hprot1 & Hden1 & Hfail1).
    match goal with |- context [save_local vs ?d ?n ?w2] =>
      pose proof (save_local_succeeds vs d n w2) as Hs end.
    cbv zeta in Hs. rewrite Hs.
    - eexists. split; [reflexivity|]. simpl.
      match goal with |- context [indexer (with_directory ?w2 ?d)] =>
        destruct (with_directory_frame w2 d) as (-> & _) end.
      done.
    - simpl. apply orb_true_intro. left. exact Hd1.
    - unfold writable in *. simpl. rewrite Hprot1, Hfail1, Hprot, Hfail, Hi.
      exact HwF.
    - unfold writable in *. simpl. rewrite Hprot1, Hfail1, Hprot, Hfail, Hi.
      exact HwP. }
  rewrite Hc. exists w'. split_and!; [done|done|].
  by apply create_n_save_index_ok in Hc as (? & _).
Qed.

Lemma rebuild_index_succeeds_witness :
  ∃ w', rebuild_index Demo.env0 Demo.loader0 Boot.w_one_pdf = (Ok true, w')
        ∧ vectorstore (indexer w') = Some (Demo.store_of [Demo.doc_a])
        ∧ index_exists w' = (Ok true, w').
Proof.
  apply (rebuild_index_succeeds Demo.env0 Demo.loader0 Boot.w_one_pdf
           {[ "a.pdf" ]} (mkEmbeddingModel config.EMBEDDING_MODEL)).
  - reflexivity.
  - discriminate.
  - vm_compute. reflexivity.
  - vm_compute. discriminate.
  - reflexivity.
  - vm_compute. reflexivity.
  - reflexivity.
  - reflexivity.
  - reflexivity.
Defined.

Lemma setup_index_eq (env : Env) (data_loader : DataLoader) (w : World) :
  setup_index env data_loader w =
    if isdir (fs w) (index_directory (indexer w))
       && exists_ (fs w) (faiss_file (indexer w))
       && exists_ (fs w) (pkl_file (indexer w)) then
      match load_index env w with
      | (Ok _, w') => (Ok true, w')
      | (Raise _, w') => (Ok false, w')
      end
    else rebuild_index env data_loader w.
Proof.
  unfold setup_index, try_except. unfold bind at 1. rewrite index_exists_eq.
  destruct (isdir _ _ && _ && _).
  - unfold bind, ret. by destruct (load_index env w) as [[[]|e] w'].
  - destruct (rebuild_index_total env data_loader w) as (b & w' & ->). done.
Qed.

(** X7. [setup_index] keeps an index that is on disk.  When
    [index_exists] holds, the set-up only loads: the file system is left
    as it is whether loading works or not, nothing is rebuilt, and the
    result is [True] exactly when [load_index] returned. *)
Theorem setup_index_existing (env : Env) (data_loader : DataLoader)
    (w : World) :
  index_exists w = (Ok true, w) →
  fs (setup_index env data_loader w).2 = fs w
  ∧ (setup_index env data_loader w).2 = (load_index env w).2
  ∧ ((setup_index env data_loader w).1 = Ok true
     ↔ (load_index env w).1 = Ok tt)
  ∧ ((setup_index env data_loader w).1 = Ok false
     ↔ ∃ e, (load_index env w).1 = Raise e).
Proof.
  rewrite index_exists_eq. intros [= Hex].
  rewrite setup_index_eq, Hex.
  pose proof (load_index_frame env w) as Hfs.
  destruct (load_index env w) as [[[]|e] w'] eqn:Hl; simpl in *.
  - split_and!; try done. split; [done|]. by intros [? ?].
  - split_and!; try done. split; [|done]. intros _. by exists e.
Qed.

Lemma setup_index_existing_witness :
  fs (setup_index Demo.env0 Demo.loader0 Demo.w_indexed).2
  = fs Demo.w_indexed
  ∧ (setup_index Demo.env0 Demo.loader0 Demo.w_indexed).1 = Ok true.
Proof.
  destruct (setup_index_existing Demo.env0 Demo.loader0 Demo.w_indexed)
    as (Hfs & _ & Htrue & _).
  - reflexivity.
  - split; [exact Hfs|]. apply Htrue. reflexivity.
Defined.

(** X8. Without an index on disk, [setup_index] is [rebuild_index]: same
    result, same final state. *)
Theorem setup_index_absent (env : Env) (data_loader : DataLoader)
    (w : World) :
  index_exists w = (Ok false, w) →
  setup_index env data_loader w = rebuild_index env data_loader w.
Proof.
  rewrite index_exists_eq. intros [= Hex]. by rewrite setup_index_eq, Hex.
Qed.

Lemma setup_index_absent_witness :
  setup_index Demo.env0 Demo.loader0 Boot.w_one_pdf
  = rebuild_index Demo.env0 Demo.loader0 Boot.w_one_pdf.
Proof.
  apply (setup_index_absent Demo.env0 Demo.loader0 Boot.w_one_pdf).
  reflexivity.
Defined.

Lemma setup_index_true_inv (env : Env) (data_loader : DataLoader)
    (w w' : World) :
  setup_index env data_loader w = (Ok true, w') →
  is_Some (vectorstore (indexer w'))
  ∧ index_exists w' = (Ok true, w').
Proof.
  rewrite setup_index_eq.
  destruct (isdir _ _ && _ && _) eqn:Hex.
  - destruct (load_index env w) as [[[]|e] w1] eqn:Hl; [|done].
    intros [= <-].
    destruct (load_index_ok_inv env w w1 Hl) as (vs & ->).
    split; [by eexists|]. rewrite index_exists_eq. simpl.
    unfold faiss_file, pkl_file, _get_index_path in *. simpl.
    by rewrite Hex.
  - intros Hr. apply rebuild_index_true_inv in Hr
      as (_ & _ & _ & vs & _ & _ & _ & _ & _ & Hh & Hi).
    split; [by eexists|done].
Qed.

(** X9. A set-up that reports success leaves a usable engine: the handle
    is present and the index is on disk. *)
Theorem setup_index_true_loaded (env : Env) (data_loader : DataLoader)
    (w w' : World) :
  setup_index env data_loader w = (Ok true, w') →
  is_Some (vectorstore (indexer w'))
  ∧ index_exists w' = (Ok true, w').
Proof. apply setup_index_true_inv. Qed.

Lemma setup_index_true_loaded_witness :
  is_Some (vectorstore (indexer Boot.w_rebuilt))
  ∧ index_exists Boot.w_rebuilt = (Ok true, Boot.w_rebuilt).
Proof.
  apply (setup_index_true_loaded Demo.env0 Demo.loader0 Boot.w_one_pdf).
  vm_compute. reflexivity.
Defined.

(** ** The orchestrator, beyond the happy path *)

(** [query], case by case. *)
Lemma query_eq (env : Env) (user_query : string) (w : World) :
  query env user_query w =
    match vectorstore (indexer w) with
    | None => (Ok index_unavailable_message, w)
    | Some vs =>
        match (match similarity_search vs user_query search_default_k with
               | Ok results => results
               | Raise _ => []
               end) with
        | [] => (Ok no_relevant_message, w)
        | doc :: docs =>
            let names :=
              Py.sorted (Py.list_set (map source_of (doc :: docs))) in
            let prompt := build_prompt names user_query in
            match llm_invoke env prompt with
            | Ok text =>
                (Ok (response_header names
                     +:+ "LLM Suggestion:" +:+ Py.nl +:+ Py.strip text),
                 with_prompt w prompt)
            | Raise e =>
                (Ok (if is_ValueError e then index_unavailable_message
                     else unexpected_error_message),
                 with_prompt w prompt)
            end
        end
    end.
Proof.
  unfold query, try_except. unfold bind at 1.
  destruct (vectorstore (indexer w)) as [vs|] eqn:Hvs.
  - assert (get_relevant_docs user_query w
            = (Ok (match similarity_search vs user_query search_default_k with
                   | Ok results => results
                   | Raise _ => []
                   end), w)) as ->.
    { apply get_relevant_docs_loaded.
      by rewrite (search_loaded_eq _ _ _ _ Hvs). }
    destruct (match similarity_search vs user_query search_default_k with
              | Ok results => results
              | Raise _ => []
              end) as [|doc docs]; [done|].
    change (negb (Py.truthy_list (doc :: docs))) with false. cbv iota zeta.
    unfold bind, generate_response, bind, log_prompt, lift, ret.
    fold (with_prompt w
            (build_prompt
               (Py.sorted (Py.list_set (map source_of (doc :: docs))))
               user_query)).
    destruct (llm_invoke env _) as [text|e]; [done|].
    by destruct e.
  - unfold get_relevant_docs. py_unfold. by rewrite Hvs.
Qed.

(** X10. [query] is a boundary: for every query, environment and state
    it returns a string and raises nothing.  It leaves the file system and
    the [Indexer] object as they are, and it sends at most one prompt to
    the completion backend. *)
Theorem query_never_raises (env : Env) (user_query : string) (w : World) :
  ∃ (answer : string) (w' : World),
    query env user_query w = (Ok answer, w')
    ∧ fs w' = fs w
    ∧ indexer w' = indexer w
    ∧ (prompts w' = prompts w ∨ ∃ p, prompts w' = prompts w ++ [p]).
Proof.
  rewrite query_eq.
  destruct (vectorstore (indexer w)) as [vs|].
  - destruct (match similarity_search vs user_query search_default_k with
              | Ok results => results
              | Raise _ => []
              end) as [|doc docs].
    + eexists _, _. split_and!; try done. by left.
    + cbv zeta. destruct (llm_invoke env _) as [text|e];
        eexists _, _; split_and!; try done; right; by eexists.
  - eexists _, _. split_and!; try done. by left.
Qed.

(** X11. When the completion backend raises, [query] still records the
    prompt it sent and answers with a fixed message chosen by the class of
    the exception alone: the message for an unexpected error, except that
    a [ValueError] from the backend is answered with the message that the
    document index is not available, on an engine whose index is
    loaded. *)
Theorem query_backend_failure (env : Env) (user_query : string) (w : World)
    (docs : list Document) (e : exn) :
  let names := Py.sorted (Py.list_set (map source_of docs)) in
  (search user_query search_default_k w).1 = Ok docs →
  docs ≠ [] →
  llm_invoke env (build_prompt names user_query) = Raise e →
  query env user_query w
  = (Ok (if is_ValueError e then index_unavailable_message
         else unexpected_error_message),
     with_prompt w (build_prompt names user_query)).
Proof.
  intros names (vs & Hvs & Hs)%search_ok_loaded Hdocs Hllm.
  rewrite (search_loaded_eq _ _ _ _ Hvs) in Hs. injection Hs as Hs.
  rewrite query_eq, Hvs, Hs.
  destruct docs as [|doc docs]; [done|]. cbv zeta. fold names.
  by rewrite Hllm.
Qed.

Lemma query_backend_failure_witness :
  is_Some (vectorstore (indexer Demo.w_loaded))
  ∧ query Boot.env_llm_down "animal behavior" Demo.w_loaded
    = (Ok index_unavailable_message,
       with_prompt Demo.w_loaded
         (build_prompt ["a.pdf"; "b.pdf"] "animal behavior")).
Proof.
  split; [by eexists|].
  apply (query_backend_failure Boot.env_llm_down "animal behavior"
           Demo.w_loaded [Demo.doc_b; Demo.doc_a]
           (ValueError "model is required")).
  - reflexivity.
  - discriminate.
  - reflexivity.
Defined.

Lemma sorted_list_set_ext (l1 l2 : list string) :
  (∀ s, s ∈ l1 ↔ s ∈ l2) →
  Py.sorted (Py.list_set l1) = Py.sorted (Py.list_set l2).
Proof.
  intros Hsame.
  destruct (sorted_list_set_spec l1) as (Hnd1 & Hs1 & Hin1).
  destruct (sorted_list_set_spec l2) as (Hnd2 & Hs2 & Hin2).
  apply (StronglySorted_unique Py.str_le _ _ Hs1 Hs2).
  apply NoDup_Permutation; [done|done|].
  intros s. by rewrite Hin1, Hin2.
Qed.

(** X12. The answer does not depend on the order in which the search
    ranked the documents, nor on how often a source occurs among them: two
    non-empty result lists with the same set of sources give the same
    prompt and the same answer. *)
Theorem query_order_insensitive (env : Env) (user_query : string)
    (w1 w2 : World) (docs1 docs2 : list Document) :
  (search user_query search_default_k w1).1 = Ok docs1 →
  (search user_query search_default_k w2).1 = Ok docs2 →
  docs1 ≠ [] →
  (∀ s, s ∈ map source_of docs1 ↔ s ∈ map source_of docs2) →
  (query env user_query w1).1 = (query env user_query w2).1
  ∧ ∃ p, prompts (query env user_query w1).2 = prompts w1 ++ [p]
         ∧ prompts (query env user_query w2).2 = prompts w2 ++ [p].
Proof.
  intros (vs1 & Hvs1 & Hs1)%search_ok_loaded
         (vs2 & Hvs2 & Hs2)%search_ok_loaded Hne Hsame.
  rewrite (search_loaded_eq _ _ _ _ Hvs1) in Hs1. injection Hs1 as Hs1.
  rewrite (search_loaded_eq _ _ _ _ Hvs2) in Hs2. injection Hs2 as Hs2.
  rewrite !query_eq, Hvs1, Hvs2, Hs1, Hs2.
  destruct docs1 as [|d1 docs1]; [done|].
  destruct docs2 as [|d2 docs2].
  { specialize (Hsame (source_of d1)). simpl in Hsame.
    destruct Hsame as [Hsame _].
    specialize (Hsame (list_elem_of_here _ _)).
    by apply not_elem_of_nil in Hsame. }
  cbv zeta. rewrite (sorted_list_set_ext _ _ Hsame).
  destruct (llm_invoke env _) as [text|e]; simpl;
    (split; [done|]); by eexists.
Qed.

Lemma query_order_insensitive_witness :
  (query Demo.env0 "animal behavior" Demo.w_loaded).1
  = (query Demo.env0 "animal behavior"
       (Demo.world_of Demo.fs_indexed
          (Some (Demo.store_of [Demo.doc_a; Demo.doc_b])))).1.
Proof.
  apply (query_order_insensitive Demo.env0 "animal behavior" Demo.w_loaded
           (Demo.world_of Demo.fs_indexed
              (Some (Demo.store_of [Demo.doc_a; Demo.doc_b])))
           [Demo.doc_b; Demo.doc_a] [Demo.doc_a; Demo.doc_b]).
  - reflexivity.
  - reflexivity.
  - discriminate.
  - intros s. simpl. rewrite !elem_of_cons. tauto.
Defined.

(** ** The loader's list *)

Lemma filter_sublist (g : string → bool) (l : list string) :
  List.filter g l `sublist_of` l.
Proof.
  induction l as [|x l IH]; simpl; [constructor|].
  destruct (g x); by constructor.
Qed.

Lemma sources_omap_sublist (env : Env) (self : DataLoader)
    (l : list string) :
  map source_of (omap (unit_of env self) l) `sublist_of` List.filter is_pdf l.
Proof.
  induction l as [|g l IH]; [constructor|].
  rewrite omap_cons_app. simpl List.filter.
  destruct (unit_of env self g) as [d|] eqn:Hu; simpl.
  - rewrite (source_of_unit _ _ _ _ Hu).
    apply unit_of_Some in Hu as (-> & _). by constructor.
  - destruct (is_pdf g); [by constructor|done].
Qed.

(** X13. What [load_pdfs] hands over.  On a directory that does not
    exist it raises [FileNotFoundError].  When it returns, the state is
    unchanged, the sources of the documents are pairwise different, and
    they are file names of the directory with a PDF extension, in the
    order of the listing; so there are no more documents than PDF
    files. *)
Theorem load_pdfs_sources (env : Env) (self : DataLoader) (w : World) :
  (dirs (fs w) !! pdf_directory self = None →
   load_pdfs env self w
   = (Raise (FileNotFoundError "No such file or directory"), w))
  ∧ (∀ docs w',
       load_pdfs env self w = (Ok docs, w') →
       w' = w
       ∧ NoDup (map source_of docs)
       ∧ map source_of docs
           `sublist_of` eligible_files (fs w) (pdf_directory self)
       ∧ (length docs ≤ length (eligible_files (fs w) (pdf_directory self)))%nat).
Proof.
  split; [apply load_pdfs_missing_directory|].
  intros docs w'. unfold eligible_files.
  destruct (listing (fs w) (pdf_directory self)) as [names|] eqn:Hd.
  - rewrite (load_pdfs_eq _ _ _ _ Hd). intros [= <- <-].
    pose proof (sources_omap_sublist env self (elements names)) as Hsub.
    split_and!; [done| |done|].
    + eapply sublist_NoDup; [|exact Hsub].
      eapply sublist_NoDup; [apply (NoDup_elements names)|].
      apply filter_sublist.
    + apply sublist_length in Hsub. by rewrite length_map in Hsub.
  - by destruct (load_pdfs_no_listing env _ _ Hd) as [e ->].
Qed.

(** ** The completion backend's configuration *)

(** X14. Which backend the handler gets.  With no [LLM_PROVIDER] in the
    environment the provider is groq: the handler is the [ChatGroq]
    client for [GROQ_MODEL] (by default llama-3.3-70b-versatile) when
    [GROQ_API_KEY] is set to a non-empty value, and construction raises
    the [ValueError] about the missing key otherwise.  A provider name
    other than ["ollama"] and ["groq"] is refused with a [ValueError]
    that quotes it, whether a key is set or not. *)
Theorem LLMHandler_init_configuration (st : Startup) :
  (environ st !! "LLM_PROVIDER" = None →
   LLMHandler_init st =
     if truthy_key (environ st !! "GROQ_API_KEY") then
       ChatGroq st (environ_get (environ st) "GROQ_MODEL"
                      "llama-3.3-70b-versatile")
     else Raise (ValueError "GROQ_API_KEY environment variable is not set."))
  ∧ (∀ provider,
       environ st !! "LLM_PROVIDER" = Some provider →
       provider ≠ "ollama" → provider ≠ "groq" →
       LLMHandler_init st
       = Raise (ValueError ("Invalid LLM_PROVIDER: " +:+ provider))).
Proof.
  unfold LLMHandler_init, _get_llm, Config_init, environ_get. simpl. split.
  - intros ->. simpl. by destruct (truthy_key _).
  - intros provider -> Ho Hg. simpl.
    rewrite (proj2 (String.eqb_neq _ _) Ho).
    by rewrite (proj2 (String.eqb_neq _ _) Hg).
Qed.

Lemma LLMHandler_init_configuration_witness :
  LLMHandler_init (Boot.libs ∅)
  = Raise (ValueError "GROQ_API_KEY environment variable is not set.")
  ∧ LLMHandler_init (Boot.libs {[ "LLM_PROVIDER" := "Groq" ]})
    = Raise (ValueError "Invalid LLM_PROVIDER: Groq").
Proof.
  split.
  - destruct (LLMHandler_init_configuration (Boot.libs ∅)) as [Hdefault _].
    apply Hdefault. reflexivity.
  - destruct (LLMHandler_init_configuration
                (Boot.libs {[ "LLM_PROVIDER" := "Groq" ]})) as [_ Hbad].
    apply (Hbad "Groq"); [reflexivity|discriminate|discriminate].
Defined.

(** ** [ai_app/main.py] *)

Lemma create_directory_eq (d : string) (w : World) :
  create_directory d w = ensure_directory d w.
Proof.
  unfold create_directory, ensure_directory, os_path_exists_dir.
  unfold bind, get_fs, ret.
  destruct (exists_dir (fs w) d); simpl; [done|].
  unfold try_except, reraise_OSError.
  destruct (os_makedirs d w) as [[[]|e] w1]; [done|].
  by destruct (is_OSError e).
Qed.

Lemma with_directory_exists (w : World) (d : string) (q : path) :
  is_empty d = false →
  exists_ (fs (with_directory w d)) q = exists_ (fs w) q.
Proof.
  intros He. unfold with_directory.
  destruct (exists_dir (fs w) d) eqn:Hex; [done|]. simpl.
  apply exists_mkdir. apply entries_None.
  unfold exists_dir in Hex. rewrite He in Hex. simpl in Hex.
  apply bool_decide_eq_false in Hex.
  destruct (dirs (fs w) !! d); [|done]. exfalso. apply Hex. by eexists.
Qed.




Lemma query_frame (env : Env) (user_query : string) (w : World) :
  ∃ (answer : string) (w' : World),
    query env user_query w = (Ok answer, w')
    ∧ fs w' = fs w
    ∧ indexer w' = indexer w
    ∧ (length (prompts w') ≤ S (length (prompts w)))%nat
    ∧ (w' = w ∨ ∃ p, w' = with_prompt w p).
Proof.
  rewrite query_eq.
  destruct (vectorstore (indexer w)) as [vs|].
  - destruct (match similarity_search vs user_query search_default_k with
              | Ok results => results
              | Raise _ => []
              end) as [|doc docs].
    + eexists _, _. split_and!; try done; [lia|by left].
    + cbv zeta. destruct (llm_invoke env _) as [text|e];
        eexists _, _; split_and!; try done; simpl;
        try (rewrite length_app; simpl; lia); right; by eexists.
  - eexists _, _. split_and!; try done; [lia|by left].
Qed.

Lemma query_loop_body_spec (env : Env) (ev : input_event) (w : World) :
  ∃ (turn : iteration) (w' : World),
    query_loop_body env ev w = (Ok turn, w')
    ∧ fs w' = fs w
    ∧ indexer w' = indexer w
    ∧ match turn with
      | Break =>
          ends_loop ev = true
          ∧ (w' = w
             ∨ (sent_before_interrupt ev = true ∧ ∃ p, w' = with_prompt w p))
      | Continue shown =>
          ends_loop ev = false
          ∧ length shown = (if asks ev then 1 else 0)%nat
          ∧ (length (prompts w') ≤ length (prompts w) + length shown)%nat
      end.
Proof.
  destruct ev as [text| | |text sent]; simpl.
  - unfold query_loop_body, try_except, bind at 1, ret at 1.
    destruct (String.eqb (Py.lower (Py.strip text)) "exit"); simpl.
    { eexists _, _. split; [reflexivity|]. split_and!; try done. by left. }
    destruct (Py.truthy_str (Py.strip text)); simpl.
    + destruct (query_frame env text w)
        as (answer & w' & Hq & Hfs & Hi & Hp & _).
      unfold bind. rewrite Hq. eexists _, _. split; [reflexivity|].
      split_and!; try done. simpl. lia.
    + eexists _, _. split; [reflexivity|]. split_and!; try done. simpl. lia.
  - eexists _, _. split; [reflexivity|]. split_and!; try done. by left.
  - unfold query_loop_body, try_except, bind, raise, ret.
    eexists _, _. split; [reflexivity|]. split_and!; try done. simpl. lia.
  - destruct (String.eqb (Py.lower (Py.strip text)) "exit").
    { eexists _, _. split; [reflexivity|]. split_and!; try done. by left. }
    destruct (Py.truthy_str (Py.strip text)); simpl.
    + destruct sent.
      * destruct (query_frame env text w)
          as (answer & w' & Hq & Hfs & Hi & _ & Hw).
        unfold bind, ret. rewrite Hq. eexists _, _. split; [reflexivity|].
        split_and!; try done.
        destruct Hw as [->|Hw]; [by left|by right].
      * eexists _, _. split; [reflexivity|]. split_and!; try done. by left.
    + eexists _, _. split; [reflexivity|]. split_and!; try done. by left.
Qed.

Lemma query_loop_spec (env : Env) (inputs : list input_event) (w : World) :
  ∃ (shown : list string) (w' w0 : World),
    query_loop env inputs w
    = (Ok (if existsb ends_loop inputs then Exited else Blocked, shown), w')
    ∧ query_loop env (before_end inputs) w = (Ok (Blocked, shown), w0)
    ∧ (w' = w0
       ∨ (existsb sent_before_interrupt inputs = true
          ∧ ∃ p, w' = with_prompt w0 p))
    ∧ fs w' = fs w
    ∧ indexer w' = indexer w
    ∧ length shown = length (List.filter asks (before_end inputs))
    ∧ (length (prompts w0) ≤ length (prompts w) + length shown)%nat.
Proof.
  revert w. induction inputs as [|ev rest IH]; intros w.
  - exists [], w, w. split_and!; try done; [by left|simpl; lia].
  - destruct (query_loop_body_spec env ev w)
      as (turn & w1 & Hb & Hfs & Hi & Hturn).
    destruct turn as [|out].
    + destruct Hturn as [Hend Hw1].
      exists [], w1, w. simpl before_end. simpl existsb. rewrite Hend. simpl.
      unfold bind. rewrite Hb. split_and!; try done; [|lia].
      destruct Hw1 as [->|[Hsent Hp]]; [by left|right].
      by rewrite Hsent.
    + destruct Hturn as (Hend & Hlen & Hp).
      destruct (IH w1)
        as (shown & w' & w0 & Hl & Hl' & Hw' & Hfs' & Hi' & Hn & Hp').
      exists (out ++ shown), w', w0.
      simpl before_end. simpl existsb. rewrite Hend. simpl orb.
      split_and!.
      * simpl. unfold bind at 1. rewrite Hb. unfold bind. by rewrite Hl.
      * simpl. unfold bind at 1. rewrite Hb. unfold bind. by rewrite Hl'.
      * destruct Hw' as [->|[Hsent Hw']]; [by left|right].
        rewrite Hsent. by rewrite orb_true_r.
      * congruence.
      * congruence.
      * rewrite length_app, Hn, Hlen. simpl. by destruct (asks ev).
      * rewrite length_app. lia.
Qed.

(** X16. Only an ["exit"] line or Ctrl-C ends [query_loop].  Run against a
    list of inputs, the loop has ended exactly when one of them is an
    ["exit"] line (whatever its case and the white space around it) or an
    interrupt, at the prompt or while the line is handled; a failing
    [input()], such as the end of the input, is logged and the loop asks
    again.  What the loop showed is what it shows for the inputs before
    the one that ended it, and the state it left is theirs too, but for
    the prompt of a query that was interrupted after it was sent: nothing
    after the end is read.  The loop raises nothing and leaves the file
    system and the [Indexer] object as they are. *)
Theorem query_loop_until_end (env : Env) (inputs : list input_event)
    (w : World) :
  ∃ (shown : list string) (w' w0 : World),
    query_loop env inputs w
    = (Ok (if existsb ends_loop inputs then Exited else Blocked, shown), w')
    ∧ query_loop env (before_end inputs) w = (Ok (Blocked, shown), w0)
    ∧ (w' = w0
       ∨ (existsb sent_before_interrupt inputs = true
          ∧ ∃ p, w' = with_prompt w0 p))
    ∧ fs w' = fs w
    ∧ indexer w' = indexer w.
Proof.
  destruct (query_loop_spec env inputs w)
    as (shown & w' & w0 & H1 & H2 & H3 & H4 & H5 & _).
  by exists shown, w', w0.
Qed.

Lemma query_loop_until_end_witness :
  (∃ (shown : list string) (w' : World),
     query_loop Demo.env0 Boot.session_no_break Demo.w_loaded
     = (Ok (Exited, shown), w')
     ∧ fs w' = fs Demo.w_loaded)
  ∧ (∃ (shown : list string) (w' : World),
       query_loop Demo.env0 Boot.session_interrupted Demo.w_loaded
       = (Ok (Exited, shown), w')
       ∧ indexer w' = indexer Demo.w_loaded).
Proof.
  split.
  - destruct (query_loop_until_end Demo.env0 Boot.session_no_break
                Demo.w_loaded) as (shown & w' & w0 & Hl & _ & _ & Hfs & _).
    exists shown, w'. split; [exact Hl | exact Hfs].
  - destruct (query_loop_until_end Demo.env0 Boot.session_interrupted
                Demo.w_loaded) as (shown & w' & w0 & Hl & _ & _ & _ & Hi).
    exists shown, w'. split; [exact Hl | exact Hi].
Defined.

(** The two sessions, run: a line of white space is not answered, the
    line [Exit] between no-break spaces ends the first session and what
    follows it is not read; the second session ends in its first query,
    whose prompt had been sent. *)
Example query_loop_sessions :
  (query_loop Demo.env0 Boot.session_no_break Demo.w_loaded).1
  = Ok (Exited,
        ["Based on your query, the following PDF files might contain relevant information:"
         +:+ String "010" ("- a.pdf"
         +:+ String "010" ("- b.pdf"
         +:+ String "010" (String "010" ("LLM Suggestion:"
         +:+ String "010" "Open a.pdf first."))))])
  ∧ length (prompts (query_loop Demo.env0 Boot.session_no_break
                       Demo.w_loaded).2) = 1%nat
  ∧ (query_loop Demo.env0 Boot.session_interrupted Demo.w_loaded).1
    = Ok (Exited, [])
  ∧ length (prompts (query_loop Demo.env0 Boot.session_interrupted
                       Demo.w_loaded).2) = 1%nat.
Proof. split_and!; vm_compute; reflexivity. Qed.

(** X17. The loop answers the lines that ask something, and nothing
    else: it shows one response for each line before the end that is
    neither blank (empty or white space only, the no-break space
    included) nor ["exit"], none for a blank line or a failed [input()],
    and it sends the completion backend at most one prompt per response,
    and one more at most when a query was interrupted after its prompt
    was sent. *)
Theorem query_loop_one_response_per_question (env : Env)
    (inputs : list input_event) (w : World) :
  ∃ (ended : loop_end) (shown : list string) (w' : World),
    query_loop env inputs w = (Ok (ended, shown), w')
    ∧ length shown = length (List.filter asks (before_end inputs))
    ∧ (length (prompts w')
       ≤ length (prompts w) + length shown
         + (if existsb sent_before_interrupt inputs then 1 else 0))%nat.
Proof.
  destruct (query_loop_spec env inputs w)
    as (shown & w' & w0 & H1 & _ & H3 & _ & _ & H5 & H6).
  eexists _, shown, w'. split_and!; [done|done|].
  destruct H3 as [->|[-> [p ->]]]; [lia|].
  simpl. rewrite length_app. simpl. lia.
Qed.

Lemma query_loop_one_response_per_question_witness :
  ∃ (ended : loop_end) (shown : list string) (w' : World),
    query_loop Demo.env0 Boot.session_no_break Demo.w_loaded
    = (Ok (ended, shown), w')
    ∧ length shown = 1%nat
    ∧ (length (prompts w') ≤ 1)%nat.
Proof.
  destruct (query_loop_one_response_per_question Demo.env0
              Boot.session_no_break Demo.w_loaded)
    as (ended & shown & w' & Hl & Hn & Hp).
  exists ended, shown, w'. split_and!; [exact Hl|exact Hn|].
  rewrite Hn in Hp. exact Hp.
Defined.

Lemma run_query_loop_spec (env : Env) (inputs : list input_event)
    (w : World) :
  ∃ (status : exit_status) (shown : list string) (w' : World),
    run_query_loop env inputs w = (Ok (status, shown), w')
    ∧ status ≠ Exit1
    ∧ fs w' = fs w
    ∧ indexer w' = indexer w.
Proof.
  destruct (query_loop_spec env inputs w)
    as (shown & w' & w0 & Hl & _ & _ & Hfs & Hi & _).
  unfold run_query_loop, bind, ret. rewrite Hl. simpl.
  eexists _, shown, w'. split; [reflexivity|].
  split_and!; try done. by destruct (existsb ends_loop inputs).
Qed.

Lemma initialize_components_eq (st : Startup) (w : World) :
  initialize_components st w =
    match ensure_directory config.PDF_DIRECTORY w with
    | (Raise e, w1) => (Raise e, w1)
    | (Ok _, w1) =>
        match ensure_directory config.INDEX_DIRECTORY w1 with
        | (Raise e, w2) => (Raise e, w2)
        | (Ok _, w2) =>
            match Embedder_init st with
            | Raise e => (Raise e, w2)
            | Ok emb =>
                let w3 := with_indexer w2
                            (Indexer_init (Some emb) config.INDEX_DIRECTORY)
                in
                match LLMHandler_init st with
                | Raise e => (Raise e, w3)
                | Ok _ => (Ok (mkDataLoader config.PDF_DIRECTORY), w3)
                end
            end
        end
    end.
Proof.
  unfold initialize_components. rewrite try_except_raise.
  unfold bind at 1. rewrite create_directory_eq.
  destruct (ensure_directory config.PDF_DIRECTORY w) as [[[]|e] w1]; [|done].
  unfold bind at 1. rewrite create_directory_eq.
  destruct (ensure_directory config.INDEX_DIRECTORY w1) as [[[]|e] w2];
    [|done].
  cbv zeta. unfold bind at 1, lift at 1.
  destruct (Embedder_init st) as [emb|e]; [|done].
  unfold bind at 1, set_indexer. unfold bind, lift, ret.
  by destruct (LLMHandler_init st).
Qed.


(** [main], case by case. *)
Lemma main_eq (st : Startup) (env : Env) (inputs : list input_event)
    (w : World) :
  main st env inputs w =
    match initialize_components st w with
    | (Raise _, w3) => (Ok (Exit1, []), w3)
    | (Ok data_loader, w3) =>
        if isdir (fs w3) (index_directory (indexer w3))
           && exists_ (fs w3) (faiss_file (indexer w3))
           && exists_ (fs w3) (pkl_file (indexer w3)) then
          match inputs with
          | [] => (Ok (WaitingForInput, []), w3)
          | Interrupt :: _ => (Ok (KeyboardInterrupted, []), w3)
          | InterruptedLine _ _ :: _ => (Ok (KeyboardInterrupted, []), w3)
          | EndOfInput :: _ => (Ok (Exit1, []), w3)
          | Line text :: rest =>
              if is_yes (Py.lower (Py.strip text)) then
                match rebuild_index env data_loader w3 with
                | (Ok true, w4) => run_query_loop env rest w4
                | (_, w4) => (Ok (Exit1, []), w4)
                end
              else
                match load_index env w3 with
                | (Ok _, w4) => run_query_loop env rest w4
                | (Raise _, w4) => (Ok (Exit1, []), w4)
                end
          end
        else
          match setup_index env data_loader w3 with
          | (Ok true, w4) => run_query_loop env inputs w4
          | (_, w4) => (Ok (Exit1, []), w4)
          end
    end.
Proof.
  assert (∀ l w4, (let (r, w') := run_query_loop env l w4 in
                   match r with
                   | Ok a => (Ok a, w')
                   | Raise e => (Ok (Exit1, []), w')
                   end) = run_query_loop env l w4) as Hloop.
  { intros l w4.
    by destruct (run_query_loop_spec env l w4) as (? & ? & ? & -> & _). }
  unfold main, try_except. unfold bind at 1.
  destruct (initialize_components st w) as [[data_loader|e] w3]; [|done].
  unfold bind at 1. rewrite index_exists_eq.
  destruct (isdir _ _ && _ && _).
  - destruct inputs as [|[text| | |text sent] rest]; try done. cbv zeta.
    destruct (is_yes (Py.lower (Py.strip text))).
    + unfold bind, ret.
      destruct (rebuild_index_total env data_loader w3) as (b & w4 & ->).
      destruct b; [apply Hloop|done].
    + unfold bind, ret.
      destruct (load_index env w3) as [[[]|e] w4]; [apply Hloop|done].
  - unfold bind, ret.
    destruct (setup_index env data_loader w3) as [[[]|e] w4] eqn:Hs;
      [apply Hloop|done|done].
Qed.

Lemma run_query_loop_keeps_loaded (env : Env) (inputs : list input_event)
    (w w' : World) (status : exit_status) (shown : list string) :
  run_query_loop env inputs w = (Ok (status, shown), w') →
  is_Some (vectorstore (indexer w)) →
  index_exists w = (Ok true, w) →
  is_Some (vectorstore (indexer w')) ∧ index_exists w' = (Ok true, w').
Proof.
  intros Hrun Hvs Hex.
  destruct (run_query_loop_spec env inputs w)
    as (status' & shown' & w'' & Hrun' & _ & Hfs & Hi).
  rewrite Hrun in Hrun'. injection Hrun' as <- <- <-.
  rewrite index_exists_eq in *. rewrite Hi, Hfs. split; [done|].
  injection Hex as ->. done.
Qed.

(** X18. [main] lets the user ask only when the index is ready.  If a
    run showed a response, or ended by leaving the query loop, then the
    engine holds a loaded index and the index exists on disk; a run that
    could not load, build or rebuild the index ends with [sys.exit(1)]
    before any question is read. *)
Theorem main_queries_only_when_loaded (st : Startup) (env : Env)
    (inputs : list input_event) (w w' : World) (status : exit_status)
    (shown : list string) :
  main st env inputs w = (Ok (status, shown), w') →
  status = Exit0 ∨ shown ≠ [] →
  is_Some (vectorstore (indexer w')) ∧ index_exists w' = (Ok true, w').
Proof.
  rewrite main_eq. intros Hmain Hloop.
  assert (∀ wx, (Ok (Exit1, @nil string), wx) = (Ok (status, shown), w') →
                False) as Hno1.
  { intros wx [= <- <- <-]. by destruct Hloop. }
  destruct (initialize_components st w) as [[data_loader|e] w3];
    [|by apply Hno1 in Hmain].
  destruct (isdir _ _ && _ && _) eqn:Hex.
  - destruct inputs as [|[text| | |text sent] rest].
    + injection Hmain as <- <- <-. by destruct Hloop.
    + destruct (is_yes _).
      * destruct (rebuild_index env data_loader w3) as [[[]|e] w4] eqn:Hr;
          try by apply Hno1 in Hmain.
        apply rebuild_index_true_inv in Hr
          as (_ & _ & _ & vs & _ & _ & _ & _ & _ & Hh & Hi).
        eapply run_query_loop_keeps_loaded; [exact Hmain| |done].
        by eexists.
      * destruct (load_index env w3) as [[[]|e] w4] eqn:Hl;
          [|by apply Hno1 in Hmain].
        destruct (load_index_ok_inv env w3 w4 Hl) as (vs & ->).
        eapply run_query_loop_keeps_loaded; [exact Hmain|by eexists|].
        rewrite index_exists_eq. simpl.
        unfold faiss_file, pkl_file, _get_index_path in *. simpl.
        by rewrite Hex.
    + injection Hmain as <- <- <-. by destruct Hloop.
    + by apply Hno1 in Hmain.
    + injection Hmain as <- <- <-. by destruct Hloop.
  - destruct (setup_index env data_loader w3) as [[[]|e] w4] eqn:Hs;
      try by apply Hno1 in Hmain.
    apply setup_index_true_inv in Hs as [Hvs Hi].
    by eapply run_query_loop_keeps_loaded.
Qed.

Lemma main_queries_only_when_loaded_witness :
  is_Some (vectorstore
             (indexer (main (Boot.libs Boot.groq_env) Demo.env0 Boot.session
                         Boot.w_one_pdf).2)).
Proof.
  eapply (main_queries_only_when_loaded (Boot.libs Boot.groq_env) Demo.env0
            Boot.session Boot.w_one_pdf _ Exit0).
  - vm_compute. reflexivity.
  - left. reflexivity.
Defined.

(** X19. Declining the rebuild keeps the files.  When the PDF directory
    and both artifact files of the configured location exist and the
    answer to the rebuild question is anything but [yes] or [y] (after
    trimming, in any case), a run of [main] leaves the file system exactly
    as it found it, however the run ends. *)
Theorem main_declined_keeps_files (st : Startup) (env : Env) (text : string)
    (rest : list input_event) (w : World) :
  isdir (fs w) config.PDF_DIRECTORY = true →
  exists_ (fs w) (os_path_join config.INDEX_DIRECTORY "faiss_index.faiss")
  = true →
  exists_ (fs w) (os_path_join config.INDEX_DIRECTORY "faiss_index.pkl")
  = true →
  is_yes (Py.lower (Py.strip text)) = false →
  fs (main st env (Line text :: rest) w).2 = fs w.
Proof.
  intros Hpdf HF HP Hno. rewrite main_eq, initialize_components_eq.
  pose proof (exists_isdir (fs w)
                (os_path_join config.INDEX_DIRECTORY "faiss_index.faiss")
                eq_refl HF) as Hidx.
  simpl in Hidx.
  rewrite ensure_directory_eq, (isdir_exists_dir _ _ Hpdf).
  rewrite ensure_directory_eq, (isdir_exists_dir _ _ Hidx).
  destruct (Embedder_init st) as [emb|e]; [|done].
  cbv zeta.
  destruct (LLMHandler_init st) as [llm|e]; [|done].
  simpl fs. simpl indexer.
  change (faiss_file (Indexer_init (Some emb) config.INDEX_DIRECTORY))
    with (os_path_join config.INDEX_DIRECTORY "faiss_index.faiss").
  change (pkl_file (Indexer_init (Some emb) config.INDEX_DIRECTORY))
    with (os_path_join config.INDEX_DIRECTORY "faiss_index.pkl").
  change (index_directory (Indexer_init (Some emb) config.INDEX_DIRECTORY))
    with config.INDEX_DIRECTORY.
  rewrite Hidx, HF, HP, Hno. simpl andb. cbv iota.
  pose proof (load_index_frame env
                (with_indexer w
                   (Indexer_init (Some emb) config.INDEX_DIRECTORY))) as Hl.
  destruct (load_index env _) as [[[]|e] w4]; simpl in Hl; [|done].
  destruct (run_query_loop_spec env rest w4)
    as (status & shown & w5 & -> & _ & Hfs & _).
  simpl. congruence.
Qed.

Lemma main_declined_keeps_files_witness :
  is_yes (Py.lower (Py.strip ("yes, please" +:+ Demo.nbsp))) = false
  ∧ fs (main (Boot.libs Boot.groq_env) Demo.env0
          (Line ("yes, please" +:+ Demo.nbsp) :: Boot.session_no_break)
          Demo.w_indexed).2
    = fs Demo.w_indexed.
Proof.
  split; [reflexivity|].
  apply (main_declined_keeps_files (Boot.libs Boot.groq_env) Demo.env0
           ("yes, please" +:+ Demo.nbsp) Boot.session_no_break
           Demo.w_indexed); reflexivity.
Defined.

(** The answer [YES] followed by a no-break space is a yes: the index is
    rebuilt, here from a directory without a PDF, and the run ends with
    [sys.exit(1)] and without the index it started with. *)
Example main_yes_no_break_space :
  is_yes (Py.lower (Py.strip (" YES" +:+ Demo.nbsp))) = true
  ∧ (main (Boot.libs Boot.groq_env) Demo.env0
       (Line (" YES" +:+ Demo.nbsp) :: Boot.session) Demo.w_indexed).1
    = Ok (Exit1, [])
  ∧ exists_ (fs (main (Boot.libs Boot.groq_env) Demo.env0
                   (Line (" YES" +:+ Demo.nbsp) :: Boot.session)
                   Demo.w_indexed).2)
      ("index", Demo.faiss_name) = false.
Proof. split_and!; vm_compute; reflexivity. Qed.



(** ** A rebuild that fails *)

(** A build that fails where no artifact file is, the files being
    deletable and the docstore file writable, leaves no index; the handle
    is the old one, or the new store when the failure came after it was
    built. *)
Lemma create_n_save_index_fails (env : Env) (documents : list Document)
    (w w' : World) (e : exn) :
  exists_ (fs w) (faiss_file (indexer w)) = false →
  exists_ (fs w) (pkl_file (indexer w)) = false →
  faiss_file (indexer w) ∉ protected (fs w) →
  writable (fs w) (pkl_file (indexer w)) = true →
  create_n_save_index env documents w = (Raise e, w') →
  index_exists w' = (Ok false, w')
  ∧ (vectorstore (indexer w') = vectorstore (indexer w)
     ∨ ∃ embedding vs,
         embedder_model (indexer w) = Some embedding
         ∧ FAISS_from_documents env documents embedding = Ok vs
         ∧ vectorstore (indexer w') = Some vs
         ∧ (writable (fs w) (faiss_file (indexer w)) = false
            ∨ isdir (fs w') (index_directory (indexer w)) = false)).
Proof.
  intros HF0 HP0 HF [HP HfP]%writable_spec.
  assert (index_exists w = (Ok false, w)) as Hw.
  { rewrite index_exists_eq, HF0. by rewrite andb_false_r. }
  destruct documents as [|doc docs].
  { intros [= <- <-]. split; [done|by left]. }
  destruct (embedder_model (indexer w)) as [embedding|] eqn:Hemb.
  2:{ unfold create_n_save_index. unfold bind at 1, get_self at 1.
      change (negb (Py.truthy_list (doc :: docs))) with false. cbv iota.
      rewrite Hemb. intros [= <- <-]. split; [done|by left]. }
  rewrite (create_n_save_index_eq env _ w embedding) by done. cbv zeta.
  set (d := index_directory (indexer w)) in *.
  set (F := faiss_file (indexer w)) in *.
  set (P := pkl_file (indexer w)) in *.
  destruct (ensure_directory d w) as [[[]|e1] w2] eqn:Hens.
  2:{ apply ensure_directory_raise in Hens as ->.
      intros [= <- <-]. split; [done|by left]. }
  apply ensure_directory_ok in Hens as [He ->].
  destruct (with_directory_frame w d) as (Hi2 & _ & Hprot2 & _ & Hfail2).
  assert (∀ q, exists_ (fs (with_directory w d)) q = exists_ (fs w) q)
    as Hex2.
  { intros q. by apply with_directory_exists. }
  destruct (FAISS_from_documents env (doc :: docs) embedding) as [vs|e1]
    eqn:Hvs.
  2:{ intros [= <- <-]. rewrite index_exists_eq, Hi2. fold F.
      rewrite Hex2, HF0, andb_false_r. split; [done|]. by left. }
  assert (∀ w3 : World,
            indexer w3 = indexer w →
            exists_ (fs w3) F = false ∨ exists_ (fs w3) P = false
            ∨ isdir (fs w3) d = false →
            index_exists (with_vectorstore w3 (Some vs))
            = (Ok false, with_vectorstore w3 (Some vs))) as Hgone.
  { intros w3 Hi3 Hno. rewrite index_exists_eq. simpl.
    change (faiss_file _) with (faiss_file (indexer w3)).
    change (pkl_file _) with (pkl_file (indexer w3)).
    rewrite Hi3. fold d F P.
    destruct Hno as [-> | [-> | ->]]; by rewrite ?andb_false_r. }
  assert (∀ w3 a b, with_fs (with_vectorstore w3 a) b
                    = with_vectorstore (with_fs w3 b) a) as Hswap by done.
  rewrite save_local_eq, path_mkdir_eq, He. simpl fs.
  change (add_suffix (os_path_join d (index_name (indexer w))) ".faiss")
    with F.
  change (add_suffix (os_path_join d (index_name (indexer w))) ".pkl")
    with P.
  rewrite Hprot2, Hfail2.
  destruct (dirs (fs (with_directory w d)) !! d) as [[names|]|] eqn:Hnode.
  - assert (entries (fs (with_directory w d)) d = Some names) as Hent.
    { unfold entries. by rewrite Hnode. }
    simpl fs. rewrite Hent. cbv zeta.
    rewrite (bool_decide_eq_false_2 _ HF).
    destruct (failing (fs w) !! F) as [e1|] eqn:HfF.
    + intros [= <- <-]. rewrite Hswap. split.
      * apply Hgone; [done|]. right. left. simpl.
        rewrite exists_touch by (change F.1 with d; rewrite Hent; by eexists).
        rewrite decide_False
          by (intros Heq; by apply (faiss_file_ne_pkl_file (indexer w))).
        by rewrite Hex2.
      * right. exists embedding, vs. split_and!; try done.
        left. unfold writable. rewrite HfF. by rewrite andb_false_r.
    + rewrite (bool_decide_eq_false_2 _ HP), HfP. done.
  - intros [= <- <-]. split.
    + apply Hgone; [done|]. right. right. unfold isdir, entries.
      rewrite Hnode. rewrite bool_decide_eq_false_2 by (by intros [? ?]).
      by rewrite andb_false_r.
    + right. exists embedding, vs. split_and!; try done. right. simpl.
      unfold isdir, entries.
      rewrite Hnode. rewrite bool_decide_eq_false_2 by (by intros [? ?]).
      by rewrite andb_false_r.
  - assert (is_Some (dirs (fs (with_directory w d)) !! d)) as [nd Hnd].
    { unfold with_directory. destruct (exists_dir (fs w) d) eqn:E.
      - by apply exists_dir_lookup in E as [_ ?].
      - simpl. rewrite lookup_insert_eq. by eexists. }
    congruence.
Qed.

(** X21. Rebuilding is destructive.  Let the vector file be deletable
    and the docstore file deletable and writable.  When [rebuild_index]
    returns [False], whatever the reason (no PDF, no document, no
    embedder, a failure of the library, an index directory that cannot be
    used, a vector file that cannot be written), there is no index on
    disk afterwards, the old one included.  The engine holds the handle
    it had before, unless the failure came after the new store was built:
    then the handle is that store, made of the documents just loaded,
    although nothing usable was saved. *)
Theorem rebuild_index_false_leaves_no_index (env : Env)
    (data_loader : DataLoader) (w w' : World) :
  faiss_file (indexer w) ∉ protected (fs w) →
  writable (fs w) (pkl_file (indexer w)) = true →
  rebuild_index env data_loader w = (Ok false, w') →
  index_exists w' = (Ok false, w')
  ∧ (vectorstore (indexer w') = vectorstore (indexer w)
     ∨ ∃ docs embedding vs,
         (load_pdfs env data_loader (_remove_existing_index w).2).1 = Ok docs
         ∧ embedder_model (indexer w) = Some embedding
         ∧ FAISS_from_documents env docs embedding = Ok vs
         ∧ vectorstore (indexer w') = Some vs
         ∧ (writable (fs w) (faiss_file (indexer w)) = false
            ∨ isdir (fs w') (index_directory (indexer w)) = false)).
Proof.
  intros HF HwP. pose proof HwP as [HP _]%writable_spec.
  destruct (_remove_existing_index_unblocked w HF HP)
    as (w1 & Hrm & Hi & _ & Hprot & _ & Hfail & _).
  destruct (_remove_existing_index_ok _ _ Hrm) as (HF1 & HP1 & _).
  assert (∀ p, writable (fs w1) p = writable (fs w) p) as Hwr.
  { intros p. unfold writable. by rewrite Hprot, Hfail. }
  assert (index_exists w1 = (Ok false, w1)) as Hw1.
  { rewrite index_exists_eq, Hi, HF1. by rewrite andb_false_r. }
  rewrite rebuild_index_eq, Hrm. simpl.
  destruct (Py.truthy_list _);
    [|intros [= <-]; split; [done|left; by rewrite Hi]].
  destruct ((load_pdfs env data_loader w1).1) as [[|doc docs]|e] eqn:Hload;
    try (intros [= <-]; split; [done|left; by rewrite Hi]).
  destruct (create_n_save_index env (doc :: docs) w1) as [[[]|e] w2] eqn:Hc;
    [done|].
  intros [= <-].
  apply create_n_save_index_fails in Hc as [Hgone Hhandle].
  - rewrite Hi in Hhandle. split; [done|].
    destruct Hhandle as [Hsame|(embedding & vs & H1 & H2 & H3 & H4)];
      [by left|right].
    exists (doc :: docs), embedding, vs. rewrite Hwr in H4. done.
  - by rewrite Hi.
  - by rewrite Hi.
  - by rewrite Hi, Hprot.
  - by rewrite Hi, Hwr.
Qed.

Lemma rebuild_index_false_leaves_no_index_witness :
  index_exists (rebuild_index Demo.env0 Demo.loader0 Demo.w_indexed).2
  = (Ok false, (rebuild_index Demo.env0 Demo.loader0 Demo.w_indexed).2)
  ∧ index_exists
      (rebuild_index Demo.env0 Demo.loader0 Boot.w_index_is_file).2
    = (Ok false,
       (rebuild_index Demo.env0 Demo.loader0 Boot.w_index_is_file).2).
Proof.
  split.
  - apply (rebuild_index_false_leaves_no_index Demo.env0 Demo.loader0
             Demo.w_indexed).
    + vm_compute. intros H. discriminate H.
    + reflexivity.
    + vm_compute. reflexivity.
  - apply (rebuild_index_false_leaves_no_index Demo.env0 Demo.loader0
             Boot.w_index_is_file).
    + vm_compute. intros H. discriminate H.
    + reflexivity.
    + vm_compute. reflexivity.
Defined.

(** With a regular file where the index directory should be, the rebuild
    fails after the store was built: the engine that held one document of
    an older index now holds the store of the document just read, and
    there is no index on disk. *)
Example rebuild_index_handle_without_index :
  (rebuild_index Demo.env0 Demo.loader0 Boot.w_index_is_file).1 = Ok false
  ∧ map source_of
      (match vectorstore
               (indexer (rebuild_index Demo.env0 Demo.loader0
                           Boot.w_index_is_file).2) with
       | Some vs => match similarity_search vs "fox" 2 with
                    | Ok docs => docs
                    | Raise _ => []
                    end
       | None => []
       end) = ["a.pdf"].
Proof. split; vm_compute; reflexivity. Qed.
